(** * Section splitting of extracted PDF text ([app/utils.py])

    A shallow embedding of [DocumentService] and of the Python string,
    [re] and [os.path] primitives it calls, followed by the properties of
    the splitter, the continuation joiner and the citation stripper.

    Text model.  A Python [str] is a Rocq [string]; each character stands
    for one code point in the range U+0000..U+00FF, and the character
    classes below are Python's on that range.  String literals in this
    file are plain ASCII. *)

From Stdlib Require Import String Ascii List Bool NArith Lia.
From stdpp Require Import base gmap strings.
Import ListNotations.

Local Open Scope string_scope.
Local Open Scope list_scope.

(** ** Python [str] primitives *)

Module PyStr.

Definition code (c : ascii) : N := N_of_ascii c.

Definition between (lo hi : N) (c : ascii) : bool :=
  (N.leb lo (code c) && N.leb (code c) hi)%bool.

Definition is_code (n : N) (c : ascii) : bool := N.eqb (code c) n.

(** The line feed, and the double quote (written by code). *)
Definition LF : ascii := ascii_of_N 10.
Definition DQUOTE : ascii := ascii_of_N 34.

(** [str.isspace] on one character; also what [strip] removes and what
    the regular expression class [\s] accepts. *)
Definition isspace (c : ascii) : bool :=
  between 9 13 c || between 28 32 c || is_code 133 c || is_code 160 c.

(** The regular expression class [\d]: the decimal digits. *)
Definition isdecimal (c : ascii) : bool := between 48 57 c.

(** [str.isdigit] on one character: the decimal digits and the
    superscripts two, three and one. *)
Definition isdigit (c : ascii) : bool :=
  isdecimal c || is_code 178 c || is_code 179 c || is_code 185 c.

(** [str.islower] on one character. *)
Definition islower (c : ascii) : bool :=
  between 97 122 c || is_code 170 c || is_code 181 c || is_code 186 c
  || between 223 246 c || between 248 255 c.

Definition lower_char (c : ascii) : ascii :=
  if between 65 90 c || between 192 214 c || between 216 222 c
  then ascii_of_N (code c + 32) else c.

(** [s.lower()] *)
Fixpoint lower (s : string) : string :=
  match s with
  | EmptyString => EmptyString
  | String c r => String (lower_char c) (lower r)
  end.

(** Truth value of a string: [if s] holds for every non-empty [s]. *)
Definition truthy (s : string) : bool :=
  match s with EmptyString => false | String _ _ => true end.

(** [s.lstrip()] *)
Fixpoint lstrip (s : string) : string :=
  match s with
  | EmptyString => EmptyString
  | String c r => if isspace c then lstrip r else s
  end.

(** [s.rstrip()] *)
Fixpoint rstrip (s : string) : string :=
  match s with
  | EmptyString => EmptyString
  | String c r =>
      let r' := rstrip r in
      if isspace c && negb (truthy r') then EmptyString else String c r'
  end.

(** [s.strip()] *)
Definition strip (s : string) : string := lstrip (rstrip s).

(** [s.startswith(p)] *)
Definition startswith (s p : string) : bool := String.prefix p s.

(** [s.endswith(p)] *)
Fixpoint endswith (s p : string) : bool :=
  String.eqb s p ||
  match s with
  | EmptyString => false
  | String _ r => endswith r p
  end.

(** [s.endswith((p1, ..., pn))] *)
Definition endswith_any (s : string) (ps : list string) : bool :=
  existsb (endswith s) ps.

(** [len(s.split())]: the number of maximal runs of non-space
    characters.  [inword] tells whether the previous character belonged
    to a word. *)
Fixpoint count_words (inword : bool) (s : string) : nat :=
  match s with
  | EmptyString => 0
  | String c r =>
      if isspace c then count_words false r
      else if inword then count_words true r
      else S (count_words true r)
  end.

(** [sep.join(parts)] *)
Definition join (sep : string) (parts : list string) : string :=
  String.concat sep parts.

(** The characters at which [str.splitlines] breaks a line. *)
Definition islinebreak (c : ascii) : bool :=
  between 10 13 c || between 28 30 c || is_code 133 c.

(** The segments of [s] between line breaks, the last one being the
    (possibly empty) text after the last break.  [after_cr] holds when
    the previous character was a carriage return, whose following line
    feed belongs to the same break. *)
Fixpoint segments (after_cr : bool) (s : string) : list string :=
  match s with
  | EmptyString => [EmptyString]
  | String c r =>
      if after_cr && is_code 10 c then segments false r
      else if islinebreak c then EmptyString :: segments (is_code 13 c) r
      else match segments false r with
           | seg :: segs => String c seg :: segs
           | [] => [String c EmptyString]
           end
  end.

(** [s.splitlines()]: a final empty segment is not a line. *)
Definition splitlines (s : string) : list string :=
  let segs := segments false s in
  match last segs with
  | Some EmptyString => removelast segs
  | _ => segs
  end.

(** [s[-1]], if [s] has a last character. *)
Fixpoint last_char (s : string) : option ascii :=
  match s with
  | EmptyString => None
  | String c EmptyString => Some c
  | String _ r => last_char r
  end.

(** Whether [s] is free of line feeds. *)
Fixpoint nolf (s : string) : bool :=
  match s with
  | EmptyString => true
  | String c r => negb (Ascii.eqb c LF) && nolf r
  end.

(** Whether every character of [s] satisfies [p]. *)
Fixpoint all_chars (p : ascii -> bool) (s : string) : bool :=
  match s with
  | EmptyString => true
  | String c r => p c && all_chars p r
  end.

(** [l[-1] = x] on a non-empty list. *)
Definition set_last {A} (l : list A) (x : A) : list A := removelast l ++ [x].

End PyStr.

Import PyStr.

(** ** The regular expressions of the module *)

Module Re.

(** The group [section], digit runs separated by single dots, taken greedily at the head of [s]: the section
    number and what follows it.  A dot belongs to the number only when a
    digit follows it.  Called on a string whose first character is a
    digit. *)
Fixpoint section_span (s : string) : string * string :=
  match s with
  | EmptyString => (EmptyString, EmptyString)
  | String c r =>
      if isdecimal c then
        let (sec, tail) := section_span r in (String c sec, tail)
      else if Ascii.eqb c "." then
        match r with
        | String d _ =>
            if isdecimal d then
              let (sec, tail) := section_span r in (String c sec, tail)
            else (EmptyString, s)
        | EmptyString => (EmptyString, s)
        end
      else (EmptyString, s)
  end.

(** The optional separator, one of [.] and [)] followed by a run of white space, taken greedily: what is left after it. *)
Definition skip_separator (s : string) : string :=
  match s with
  | String c r => if Ascii.eqb c "." || Ascii.eqb c ")" then lstrip r else s
  | EmptyString => EmptyString
  end.

(** The group [rest] up to the end anchor: the dot accepts every character but the line feed, and the
    end anchor also holds just before a line feed that ends the string. *)
Fixpoint dot_star_end (s : string) : option string :=
  match s with
  | EmptyString => Some EmptyString
  | String c r =>
      if Ascii.eqb c LF then
        (if truthy r then None else Some EmptyString)
      else option_map (String c) (dot_star_end r)
  end.

(** [section_pattern.match(s)]: the groups [section] and [rest] of the
    match, if any.  The pattern is, token by token: start anchor; group
    [section] = one or more [\d], then any number of ( [\.] and one or
    more [\d] ); optionally ( one of [.] [)] and any number of [\s] );
    group [rest] = any number of [.]; end anchor.  The greedy reading
    consumes the longest head, so the pattern matches exactly when that
    reading does. *)
Definition section_pattern (s : string) : option (string * string) :=
  match s with
  | String c _ =>
      if isdecimal c then
        let (sec, tail) := section_span s in
        match dot_star_end (skip_separator tail) with
        | Some rest => Some (sec, rest)
        | None => None
        end
      else None
  | EmptyString => None
  end.

(** [re.match(r'^[A-Z0-9]', s)] as a truth value. *)
Definition capital_or_digit (s : string) : bool :=
  match s with
  | String c _ => between 65 90 c || between 48 57 c
  | EmptyString => false
  end.

(** [re.match(r'https?://', s)] as a truth value. *)
Definition http_url (s : string) : bool :=
  startswith s "http://" || startswith s "https://".

End Re.

(** ** [os.path.splitext] *)

Module OsPath.

Fixpoint has_dot (s : string) : bool :=
  match s with
  | EmptyString => false
  | String c r => Ascii.eqb c "." || has_dot r
  end.

(** The root of [os.path.splitext] on a name without directory part:
    the text before the last dot, provided a character other than a dot
    comes before that dot; the whole name otherwise.  [seen] holds once
    such a character has been passed. *)
Fixpoint splitext_root (seen : bool) (s : string) : string :=
  match s with
  | EmptyString => EmptyString
  | String c r =>
      if Ascii.eqb c "." && seen && negb (has_dot r) then EmptyString
      else String c (splitext_root (seen || negb (Ascii.eqb c ".")) r)
  end.

(** [os.path.splitext(filename)[0]] *)
Definition stem (filename : string) : string := splitext_root false filename.

End OsPath.

(** ** Results of code that may raise *)

Inductive exn : Set := IndexError.

Inductive result (A : Type) : Type :=
| Ok (a : A)
| Raise (e : exn).
Arguments Ok {A} a.
Arguments Raise {A} e.

#[global] Instance result_bind : MBind result := fun A B k r =>
  match r with
  | Ok a => k a
  | Raise e => Raise e
  end.

(** ** The documents handed to the index *)

Module Doc.
(** A llama-index [Document]: the four metadata entries and the text. *)
Record t : Set := mk {
  section : string;
  section_title : string;
  source : string;
  file_name : string;
  text : string
}.
End Doc.

(** ** What the PDF reader hands in *)

(** One page: [page.extract_text()] and the text extracted from the
    characters whose font name contains [Bold]; either may be [None]. *)
Record Page : Set := {
  extract_text : option string;
  bold_extract_text : option string
}.

(** One file of [./docs]: [os.path.basename(pdf_path)] and its pages. *)
Record Pdf : Set := {
  basename : string;
  pages : list Page
}.

(** ** [DocumentService] *)

Module DocumentService.

Import Re.

(** [x or ''] for an optional string: the empty string for [None]. *)
Definition or_empty (x : option string) : string :=
  match x with
  | Some s => if truthy s then s else EmptyString
  | None => EmptyString
  end.

Definition should_join (prev curr : string) : bool :=
  if negb (truthy prev) || negb (truthy curr) then false
  else
    match curr with
    | EmptyString => false
    | String c0 _ =>
        if islower c0 then true
        else if negb (endswith_any prev
                        ["."; "!"; "?"; String DQUOTE EmptyString; "'"])
        then true
        else if negb (isdigit c0) && negb (startswith (lower curr) "citations")
        then true
        else false
    end.

Definition looks_like_title (s : string) : bool :=
  if negb (truthy s) then false
  else
    let s := strip s in
    if Nat.ltb 60 (String.length s) then false
    else if Nat.ltb 8 (count_words false s) then false
    else if negb (capital_or_digit s) then false
    else if endswith s "." || endswith s ":" || endswith s ";" then false
    else true.

(** The loop of [strip_trailing_citations] from index [i] on: the index
    at which it returns, if it does. *)
Fixpoint citations_index (i : nat) (lines : list string) : option nat :=
  match lines with
  | [] => None
  | ln :: rest =>
      let s := strip ln in
      if negb (truthy s) then citations_index (S i) rest
      else if startswith (lower s) "citations" then Some i
      else if http_url s || startswith s "www." then Some i
      else citations_index (S i) rest
  end.

Definition strip_trailing_citations (lines : list string) : list string :=
  match lines with
  | [] => lines
  | _ =>
      match citations_index 0 lines with
      | Some i => firstn i lines
      | None => lines
      end
  end.

(** One round of the paragraph loop of [flush_section] on the pair
    [(paragraphs, para_buf)]. *)
Definition paragraph_step (acc : list string * list string) (ln : string)
  : list string * list string :=
  let (paragraphs, para_buf) := acc in
  if String.eqb ln "" then
    match para_buf with
    | [] => (paragraphs, para_buf)
    | _ => (paragraphs ++ [strip (join " " para_buf)], [])
    end
  else
    match last para_buf with
    | Some prev =>
        if should_join prev ln
        then (paragraphs, set_last para_buf (rstrip prev +:+ " " +:+ lstrip ln))
        else (paragraphs, para_buf ++ [ln])
    | None => (paragraphs, para_buf ++ [ln])
    end.

(** [doc_text] of [flush_section] from its [content_lines]. *)
Definition doc_text (content_lines : list string) : string :=
  let (paragraphs, para_buf) := fold_left paragraph_step content_lines ([], []) in
  let paragraphs :=
    match para_buf with
    | [] => paragraphs
    | _ => paragraphs ++ [strip (join " " para_buf)]
    end in
  strip (join (String LF (String LF EmptyString)) paragraphs).

(** [flush_section] appends to [curr_docs] in place; here it returns the
    list after the call. *)
Definition flush_section (curr_docs : list Doc.t)
    (current_section : option string) (current_text_lines : list string)
    (source filename : string) (section_title : option string) : list Doc.t :=
  match current_section with
  | Some sec =>
      if existsb (fun t => truthy (strip t)) current_text_lines then
        let content_lines := strip_trailing_citations current_text_lines in
        let text := doc_text content_lines in
        if truthy text then
          curr_docs ++ [ {| Doc.section := sec;
                            Doc.section_title := or_empty section_title;
                            Doc.source := source;
                            Doc.file_name := filename;
                            Doc.text := text |} ]
        else curr_docs
      else curr_docs
  | None => curr_docs
  end.

(** The variables of [create_documents] that the line loop updates. *)
Record loop_state : Set := {
  curr_docs : list Doc.t;
  current_section : option string;
  section_title : option string;
  current_text_lines : list string
}.

Section PerFile.

Variable bold_candidates : gset string.
Variable source filename : string.

(** The body of [for line in lines]. *)
Definition line_step (st : loop_state) (line : string) : loop_state :=
  let curr_line := rstrip line in
  if negb (truthy (strip curr_line)) then
    match current_section st with
    | Some _ =>
        {| curr_docs := curr_docs st;
           current_section := current_section st;
           section_title := section_title st;
           current_text_lines := current_text_lines st ++ [""] |}
    | None => st
    end
  else
    match section_pattern (strip curr_line) with
    | Some (sec, rest0) =>
        let docs := flush_section (curr_docs st) (current_section st)
                      (current_text_lines st) source filename (section_title st) in
        let rest := strip rest0 in
        if bool_decide (strip curr_line ∈ bold_candidates) && looks_like_title rest
        then {| curr_docs := docs;
                current_section := Some sec;
                section_title := Some rest;
                current_text_lines := [] |}
        else {| curr_docs := docs;
                current_section := Some sec;
                section_title := section_title st;
                current_text_lines := if truthy rest then [rest] else [] |}
    | None =>
        match current_section st with
        | Some _ =>
            let body :=
              match last (current_text_lines st) with
              | Some prev =>
                  if should_join prev curr_line
                  then set_last (current_text_lines st)
                         (rstrip prev +:+ " " +:+ lstrip curr_line)
                  else current_text_lines st ++ [curr_line]
              | None => current_text_lines st ++ [curr_line]
              end in
            {| curr_docs := curr_docs st;
               current_section := current_section st;
               section_title := section_title st;
               current_text_lines := body |}
        | None => st
        end
    end.

(** The line loop followed by the flush at the end of the file. *)
Definition scan_lines (st : loop_state) (lines : list string) : list Doc.t :=
  let st' := fold_left line_step lines st in
  flush_section (curr_docs st') (current_section st')
    (current_text_lines st') source filename (section_title st').

End PerFile.

(** The state at the head of a file: no section, no title, no lines. *)
Definition file_start (docs : list Doc.t) : loop_state :=
  {| curr_docs := docs;
     current_section := None;
     section_title := None;
     current_text_lines := [] |}.

(** The source of a file, from [lines[0]]; an empty [lines] has no item
    0. *)
Definition source_label (lines : list string) (filename : string)
  : result string :=
  match lines with
  | [] => Raise IndexError
  | line0 :: _ =>
      match section_pattern (strip line0) with
      | None => Ok (strip line0)
      | Some _ => Ok (OsPath.stem filename)
      end
  end.

(** The part of the file loop below [lines = full_text.splitlines()]. *)
Definition split_sections (docs : list Doc.t) (filename : string)
    (lines : list string) (bold_candidates : gset string)
  : result (list Doc.t) :=
  source ← source_label lines filename;
  Ok (scan_lines bold_candidates source filename (file_start docs) lines).

(** The stripped non-empty lines of the bold text of the pages. *)
Definition collect_bold (ps : list Page) : gset string :=
  fold_left
    (fun acc p =>
       fold_left
         (fun acc bl =>
            let bls := strip bl in
            if truthy bls then acc ∪ {[ bls ]} else acc)
         (splitlines (default EmptyString (bold_extract_text p))) acc)
    ps ∅.

(** The body of [for pdf_path in pdf_paths]. *)
Definition file_documents (docs : list Doc.t) (pdf : Pdf) : result (list Doc.t) :=
  let pages_text := map (fun p => default EmptyString (extract_text p)) (pages pdf) in
  let bold_candidates := collect_bold (pages pdf) in
  let full_text := join (String LF EmptyString) pages_text in
  split_sections docs (basename pdf) (splitlines full_text) bold_candidates.

(** [create_documents] on the files of [./docs] in sorted path order. *)
Fixpoint documents_from (docs : list Doc.t) (pdfs : list Pdf) : result (list Doc.t) :=
  match pdfs with
  | [] => Ok docs
  | pdf :: rest => docs' ← file_documents docs pdf; documents_from docs' rest
  end.

Definition create_documents (pdfs : list Pdf) : result (list Doc.t) :=
  documents_from [] pdfs.

End DocumentService.

Import DocumentService.

(** ** The contracts in the words of the specification *)

Module Spec.

(** The marks that end a sentence (4.2, rule 2). *)
Definition terminal : list ascii := ["."; "!"; "?"; DQUOTE; "'"]%char.

Definition ends_in_terminal (prev : string) : bool :=
  match last_char prev with
  | Some p => existsb (Ascii.eqb p) terminal
  | None => false
  end.

(** The continuation joiner of 4.2: false when either string is empty,
    then the rules 1 to 4 in order. *)
Definition continues (prev curr : string) : bool :=
  match prev, curr with
  | EmptyString, _ => false
  | _, EmptyString => false
  | _, String first _ =>
      if islower first then true
      else if negb (ends_in_terminal prev) then true
      else if negb (isdigit first) && negb (String.prefix "citations" (lower curr))
      then true
      else false
  end.

(** The lines at which a citation block begins (4.3): the trimmed line
    starts with the word citations in any case, or has the shape of a
    bare URL. *)
Definition citation_start (ln : string) : bool :=
  let s := strip ln in
  String.prefix "citations" (lower s)
  || String.prefix "http://" s || String.prefix "https://" s
  || String.prefix "www." s.

(** The longest prefix of [lines] that ends strictly before the first
    line beginning a citation block (4.3). *)
Fixpoint before_citations (lines : list string) : list string :=
  match lines with
  | [] => []
  | ln :: rest => if citation_start ln then [] else ln :: before_citations rest
  end.

(** A document of the file with source label [source] and name
    [filename] whose body is not empty after trimming. *)
Definition emitted_ok (source filename : string) (d : Doc.t) : Prop :=
  Doc.source d = source /\ Doc.file_name d = filename /\ strip (Doc.text d) <> "".

(** A document whose body is not empty after trimming. *)
Definition body_nonempty (d : Doc.t) : Prop := strip (Doc.text d) <> "".

(** A line that the heading pattern rejects once trimmed. *)
Definition not_heading (line : string) : Prop :=
  Re.section_pattern (strip line) = None.

(** The first line of [lines] that is not blank (4.6). *)
Fixpoint first_nonblank (lines : list string) : option string :=
  match lines with
  | [] => None
  | line :: rest => if truthy (strip line) then Some line else first_nonblank rest
  end.

(** The title that a line sets (4.1): the line is a heading, its whole
    trimmed text is in the bold line set and the title heuristic accepts
    its rest. *)
Definition accepted_title (bold : gset string) (line : string) : option string :=
  match Re.section_pattern (strip line) with
  | Some (_, rest0) =>
      if bool_decide (strip line ∈ bold) && looks_like_title (strip rest0)
      then Some (strip rest0) else None
  | None => None
  end.

(** The title in force after [lines]: that of the last line among them
    that set one. *)
Definition title_in_force (bold : gset string) (lines : list string)
  : option string :=
  last (omap (accepted_title bold) lines).

End Spec.

(** ** The scenarios of the specification and other concrete inputs *)

Module Scenario.

Definition laws_lines : list string :=
  ["1. Theft"; "Theft is punishable by hanging."; "";
   "2. Tax Evasion"; "Tax evasion is punishable by banishment."].

Definition document (sec title src file body : string) : Doc.t :=
  {| Doc.section := sec; Doc.section_title := title; Doc.source := src;
     Doc.file_name := file; Doc.text := body |}.

(** The two documents as section 8 of the specification gives them. *)
Definition laws_as_specified : list Doc.t :=
  [document "1" "" "laws" "laws.pdf" "Theft is punishable by hanging.";
   document "2" "" "laws" "laws.pdf" "Tax evasion is punishable by banishment."].

(** The two documents as the code builds them. *)
Definition laws_as_built : list Doc.t :=
  [document "1" "" "laws" "laws.pdf" "Theft Theft is punishable by hanging.";
   document "2" "" "laws" "laws.pdf"
     "Tax Evasion Tax evasion is punishable by banishment."].

(** A bold titled heading followed by a plain heading. *)
Definition titled_then_plain : list string :=
  ["1. Definitions"; "Body one."; "2. second part"; "Body two."].
Definition titled_then_plain_bold : gset string := {[ "1. Definitions" ]}.

(** A file whose only page holds no text. *)
Definition blank_page : Page :=
  {| extract_text := None; bold_extract_text := None |}.
Definition scan_pdf : Pdf := {| basename := "scan.pdf"; pages := [blank_page] |}.

(** A file of two such pages: its text is one line feed, hence one empty
    line. *)
Definition scan2_pdf : Pdf :=
  {| basename := "scan2.pdf"; pages := [blank_page; blank_page] |}.

(** A one-page file with the lines of [laws_lines]. *)
Definition laws_pdf : Pdf :=
  {| basename := "laws.pdf";
     pages := [ {| extract_text := Some (join (String LF "") laws_lines);
                   bold_extract_text := Some "" |} ] |}.

End Scenario.

(** ** Notions for the further properties of the splitter *)

Module Outline.

(** The section number that a line opens, if the line is a heading. *)
Definition heading_number (line : string) : option string :=
  match Re.section_pattern (strip line) with
  | Some (sec, _) => Some sec
  | None => None
  end.

(** The section numbers of the headings of [lines], in order. *)
Definition heading_numbers (lines : list string) : list string :=
  omap heading_number lines.

(** Groups of digits separated by single dots: the string starts with a
    digit, and each dot is followed by a digit. *)
Fixpoint dotted (s : string) : bool :=
  match s with
  | EmptyString => false
  | String c r =>
      isdecimal c &&
      match r with
      | EmptyString => true
      | String d r' => if Ascii.eqb d "." then dotted r' else dotted r
      end
  end.

(** A tail at which a section number ends: it starts neither with a
    digit nor with a dot that a digit follows. *)
Definition ends_number (tail : string) : bool :=
  match tail with
  | EmptyString => true
  | String c r =>
      negb (isdecimal c) &&
      negb (Ascii.eqb c "." &&
            match r with String d _ => isdecimal d | EmptyString => false end)
  end.

(** The state [st] with [pre] put before its documents. *)
Definition prepend (pre : list Doc.t) (st : loop_state) : loop_state :=
  {| curr_docs := pre ++ curr_docs st;
     current_section := current_section st;
     section_title := section_title st;
     current_text_lines := current_text_lines st |}.

(** [lines] of [create_documents] for one file. *)
Definition lines_of (pdf : Pdf) : list string :=
  splitlines
    (join (String LF EmptyString)
       (map (fun p => default EmptyString (extract_text p)) (pages pdf))).

(** A file whose text is empty: no page, or one page without text. *)
Definition textless (pdf : Pdf) : bool :=
  match pages pdf with
  | [] => true
  | [p] => negb (truthy (default EmptyString (extract_text p)))
  | _ => false
  end.

End Outline.

(** ** [QdrantService]: the citations of an answer *)

Module Citation.
(** The dataclass [Citation]. *)
Record t : Set := mk {
  source : string;
  text : string;
  number : option N
}.
End Citation.

Module Output.
(** The model [Output]. *)
Record t : Set := mk {
  query : string;
  response : string;
  citations : list Citation.t
}.
End Output.

(** A source node of the answer of the query engine: its text, and its
    metadata, a dictionary from strings to strings. *)
Record Node : Set := {
  node_text : string;
  node_metadata : gmap string string
}.

(** The answer of the query engine: [response.response] and
    [response.source_nodes]. *)
Record Response : Set := {
  response_text : string;
  source_nodes : list Node
}.

Module QdrantService.

Inductive error : Set := TypeError | ValueError.

Inductive outcome (A : Type) : Type :=
| Returns (a : A)
| Raises (e : error).
Arguments Returns {A} a.
Arguments Raises {A} e.

#[global] Instance outcome_bind : MBind outcome := fun A B k r =>
  match r with
  | Returns a => k a
  | Raises e => Raises e
  end.

(** The metadata that [flush_section] gives to a document, as the
    dictionary it is. *)
Definition metadata_of (d : Doc.t) : gmap string string :=
  {[ "section" := Doc.section d;
     "section_title" := Doc.section_title d;
     "source" := Doc.source d;
     "file_name" := Doc.file_name d ]}.

Definition query_template : string :=
  "You are a legal assistant helping users with questions about the laws in the provided documents "
  +:+ "regarding the laws of The Seven Kingdoms. Remember to answer based only on the context provided and cite "
  +:+ "only relevant sources. If the available legal documents do not contain the answer, please indicate "
  +:+ "so. Only include information relevant to the query in your response. The user query is:".

Definition add_instructions (query_str : string) : string :=
  query_template +:+ String LF (String LF "") +:+ query_str.

(** A literal of a pattern compiled with [re.IGNORECASE], at the head of
    [s]: what follows it. *)
Fixpoint literal_nocase (lit s : string) : option string :=
  match lit with
  | EmptyString => Some s
  | String a lit' =>
      match s with
      | String c s' =>
          if Ascii.eqb (lower_char a) (lower_char c)
          then literal_nocase lit' s' else None
      | EmptyString => None
      end
  end.

(** One or more [\d], greedily: the digits and what follows them. *)
Fixpoint span_digits (s : string) : string * string :=
  match s with
  | String c r =>
      if isdecimal c then let (ds, tail) := span_digits r in (String c ds, tail)
      else (EmptyString, s)
  | EmptyString => (EmptyString, EmptyString)
  end.

(** One or more [.] up to the end anchor: the group [text]. *)
Definition dot_plus_end (s : string) : option string :=
  match Re.dot_star_end s with
  | Some (String c r) => Some (String c r)
  | _ => None
  end.

(** Any number of [\s], then the group [text] up to the end anchor.  The
    white space is taken greedily and given back one character at a time
    for as long as the text does not match. *)
Fixpoint space_then_text (s : string) : option string :=
  match s with
  | String c r =>
      if isspace c then
        match space_then_text r with
        | Some t => Some t
        | None => dot_plus_end s
        end
      else dot_plus_end s
  | EmptyString => None
  end.

(** [self.source_regex.match(s)]: the groups [number] and [text] of the
    match, if any.  The pattern is, token by token: start anchor; any
    number of [\s]; the word Source in any case; any number of [\s]; group
    [number] = one or more [\d]; any number of [\s]; a colon; any number of
    [\s]; group [text] = one or more [.]; end anchor. *)
Definition source_regex (s : string) : option (string * string) :=
  match literal_nocase "Source" (lstrip s) with
  | Some s2 =>
      let (num, s4) := span_digits (lstrip s2) in
      if truthy num then
        match lstrip s4 with
        | String c s6 =>
            if Ascii.eqb c ":" then
              match space_then_text s6 with
              | Some t => Some (num, t)
              | None => None
              end
            else None
        | EmptyString => None
        end
      else None
  | None => None
  end.

(** The value of a string of decimal digits. *)
Fixpoint digits_value (acc : N) (s : string) : N :=
  match s with
  | EmptyString => acc
  | String c r => digits_value (10 * acc + (code c - 48))%N r
  end.

Section Service.

(** [sys.get_int_max_str_digits()]: 0 for no limit, and otherwise the
    greatest number of digits that [int] converts (at least 640; 4300
    unless set otherwise). *)
Variable int_max_str_digits : nat.

(** The query engine built from the index and [self.k]: the answer it
    gives to a query string. *)
Variable query_engine : nat -> string -> Response.

(** [int(s)] on a string of decimal digits. *)
Definition py_int (s : string) : outcome N :=
  if Nat.ltb 0 int_max_str_digits && Nat.ltb int_max_str_digits (String.length s)
  then Raises ValueError
  else Returns (digits_value 0 s).

(** [node.metadata.get("source") + " > " + node.metadata.get("section")]:
    a key that is missing gives [None], which can not be added to a
    string. *)
Definition citation_source (node : Node) : outcome string :=
  match node_metadata node !! "source" with
  | None => Raises TypeError
  | Some src =>
      match node_metadata node !! "section" with
      | None => Raises TypeError
      | Some sec => Returns (src +:+ " > " +:+ sec)
      end
  end.

(** The body of [for node in response.source_nodes]: the citation that is
    appended. *)
Definition cite (node : Node) : outcome Citation.t :=
  parsed ← match source_regex (node_text node) with
           | Some (num, t) => n ← py_int num; Returns (Some n, t)
           | None => Returns (None, node_text node)
           end;
  src ← citation_source node;
  Returns {| Citation.source := src;
             Citation.text := snd parsed;
             Citation.number := fst parsed |}.

Fixpoint cite_all (nodes : list Node) : outcome (list Citation.t) :=
  match nodes with
  | [] => Returns []
  | node :: rest =>
      c ← cite node;
      cs ← cite_all rest;
      Returns (c :: cs)
  end.

(** [query] of a service with [self.k = k]. *)
Definition query (k : nat) (query_str : string) : outcome Output.t :=
  let response := query_engine k (add_instructions query_str) in
  citations ← cite_all (source_nodes response);
  Returns {| Output.query := query_str;
             Output.response := response_text response;
             Output.citations := citations |}.

End Service.

End QdrantService.

(** ** Sample files for the further properties *)

Module Sample.

(** A one-page statute: a preamble line, a bold titled heading and two
    numbered clauses, the second one wrapped over two lines. *)
Definition statute_lines : list string :=
  ["Laws of the Realm"; "1. Peace"; "1.1. Keep the peace."; "";
   "1.2. Pay your dues  "; "in coin."].

Definition statute_pdf : Pdf :=
  {| basename := "statute.pdf";
     pages := [ {| extract_text := Some (join (String LF "") statute_lines);
                   bold_extract_text := Some "1. Peace" |} ] |}.

Definition statute_docs : list Doc.t :=
  [Scenario.document "1.1" "Peace" "Laws of the Realm" "statute.pdf" "Keep the peace.";
   Scenario.document "1.2" "Peace" "Laws of the Realm" "statute.pdf"
     "Pay your dues in coin."].

(** A plain heading followed by a bold titled one. *)
Definition plain_then_titled : list string :=
  ["1. a plain heading"; "Body one."; "2. Definitions"; "Body two."].
Definition plain_then_titled_bold : gset string := {[ "2. Definitions" ]}.

(** An answer of the query engine with two source nodes: one whose text
    has a source label, one whose text has two paragraphs. *)
Definition theft_doc : Doc.t :=
  Scenario.document "1" "" "laws" "laws.pdf" "Theft is punishable by hanging.".

Definition answer : Response :=
  {| response_text := "Thieves are hanged.";
     source_nodes :=
       [ {| node_text := "Source 1:" +:+ String LF "Theft is punishable by hanging."
                         +:+ String LF "";
            node_metadata := QdrantService.metadata_of theft_doc |};
         {| node_text := "Source 2:" +:+ String LF "First paragraph."
                         +:+ String LF (String LF "Second paragraph.");
            node_metadata := QdrantService.metadata_of theft_doc |} ] |}.

Definition engine (k : nat) (query_str : string) : Response := answer.

Definition answer_output : Output.t :=
  {| Output.query := "what happens if I steal?";
     Output.response := "Thieves are hanged.";
     Output.citations :=
       [ {| Citation.source := "laws > 1";
            Citation.text := "Theft is punishable by hanging.";
            Citation.number := Some 1%N |};
         {| Citation.source := "laws > 1";
            Citation.text := "Source 2:" +:+ String LF "First paragraph."
                             +:+ String LF (String LF "Second paragraph.");
            Citation.number := None |} ] |}.

End Sample.

(** * Properties *)

(** ** The primitives on concrete inputs *)

Example splitlines_breaks :
  splitlines (String "a" (String LF (String LF (String "b" (String LF "")))))
  = ["a"; ""; "b"]
  /\ splitlines "" = []
  /\ splitlines (String LF "") = [""]
  /\ splitlines (String "a" (String (ascii_of_N 13) (String LF (String "b" ""))))
     = ["a"; "b"].
Proof. repeat split; vm_compute; reflexivity. Qed.

Example strip_sides :
  strip "  a b  " = "a b" /\ rstrip "  a b  " = "  a b" /\ lstrip "  a b  " = "a b  "
  /\ strip "   " = "".
Proof. repeat split; vm_compute; reflexivity. Qed.

Example endswith_suffixes :
  endswith "abc." "." = true /\ endswith "abc" "." = false /\ endswith "abc" "" = true.
Proof. repeat split; vm_compute; reflexivity. Qed.

Example section_pattern_groups :
  Re.section_pattern "1.2.3) Scope" = Some ("1.2.3", "Scope")
  /\ Re.section_pattern "1. Theft" = Some ("1", "Theft")
  /\ Re.section_pattern "1..2" = Some ("1", ".2")
  /\ Re.section_pattern "2023 was a landmark year" = Some ("2023", " was a landmark year")
  /\ Re.section_pattern "Theft" = None
  /\ Re.section_pattern "" = None
  /\ Re.section_pattern (String "1" (String "a" (String LF (String "b" "")))) = None.
Proof. repeat split; vm_compute; reflexivity. Qed.

Example stem_of_names :
  OsPath.stem "laws.pdf" = "laws" /\ OsPath.stem "a.b.pdf" = "a.b"
  /\ OsPath.stem ".pdf" = ".pdf".
Proof. repeat split; vm_compute; reflexivity. Qed.

(** The fixtures of the title heuristic (section 8). *)
Example looks_like_title_fixtures :
  looks_like_title "Definitions" = true
  /\ looks_like_title "This is a full sentence about definitions." = false
  /\ looks_like_title "a" = false.
Proof. repeat split; vm_compute; reflexivity. Qed.

(** ** Facts about the string primitives *)

Section StringFacts.

Lemma truthy_false (s : string) : truthy s = false <-> s = "".
Proof. destruct s; simpl; split; congruence. Qed.

Lemma truthy_true (s : string) : truthy s = true <-> s <> "".
Proof. destruct s; simpl; split; congruence. Qed.

Lemma rstrip_idem (s : string) : rstrip (rstrip s) = rstrip s.
Proof.
  induction s as [|c r IH]; simpl; [reflexivity|].
  destruct (isspace c && negb (truthy (rstrip r))) eqn:E; simpl; [reflexivity|].
  rewrite IH, E. reflexivity.
Qed.

Lemma lstrip_idem (s : string) : lstrip (lstrip s) = lstrip s.
Proof.
  induction s as [|c r IH]; simpl; [reflexivity|].
  destruct (isspace c) eqn:E; [exact IH|]. simpl. rewrite E. reflexivity.
Qed.

(** Removing leading space from a string without trailing space leaves
    no trailing space. *)
Lemma rstrip_lstrip_fixed (t : string) :
  rstrip t = t -> rstrip (lstrip t) = lstrip t.
Proof.
  induction t as [|c r IH]; simpl; [reflexivity|].
  intros H. destruct (isspace c) eqn:E.
  - apply IH. simpl in H.
    destruct (negb (truthy (rstrip r))); simpl in H; congruence.
  - simpl. rewrite E. exact H.
Qed.

Lemma rstrip_strip (s : string) : rstrip (strip s) = strip s.
Proof. unfold strip. apply rstrip_lstrip_fixed, rstrip_idem. Qed.

Lemma strip_idem (s : string) : strip (strip s) = strip s.
Proof.
  unfold strip at 1. rewrite rstrip_strip. unfold strip. apply lstrip_idem.
Qed.

Lemma strip_rstrip (s : string) : strip (rstrip s) = strip s.
Proof. unfold strip. rewrite rstrip_idem. reflexivity. Qed.

Lemma strip_empty : strip "" = "".
Proof. reflexivity. Qed.

(** A string ends with a one-character string exactly when that
    character is its last one. *)
Lemma endswith_char (s : string) (c : ascii) :
  endswith s (String c "") = true <-> last_char s = Some c.
Proof.
  induction s as [|a r IH]; [simpl; split; discriminate|].
  destruct r as [|b r'].
  - simpl. rewrite orb_false_r.
    destruct (Ascii.eqb_spec a c) as [->|Hne]; split; try congruence; auto.
  - change (last_char (String a (String b r'))) with (last_char (String b r')).
    change (endswith (String a (String b r')) (String c ""))
      with (String.eqb (String a (String b r')) (String c "")
            || endswith (String b r') (String c "")).
    replace (String.eqb (String a (String b r')) (String c "")) with false
      by (simpl; destruct (Ascii.eqb a c); reflexivity).
    rewrite orb_false_l. exact IH.
Qed.

End StringFacts.

(** ** The continuation joiner *)

Section Joiner.

Lemma endswith_any_chars (s : string) (cs : list ascii) :
  endswith_any s (map (fun c => String c "") cs)
  = match last_char s with
    | Some p => existsb (Ascii.eqb p) cs
    | None => false
    end.
Proof.
  unfold endswith_any. induction cs as [|c cs IH]; simpl.
  - destruct (last_char s); reflexivity.
  - rewrite IH. destruct (endswith s (String c "")) eqn:E.
    + apply endswith_char in E. rewrite E, Ascii.eqb_refl. reflexivity.
    + destruct (last_char s) as [p|] eqn:L; [|reflexivity].
      destruct (Ascii.eqb_spec p c) as [->|Hne]; [|reflexivity].
      apply endswith_char in L. congruence.
Qed.

Lemma should_join_continues (prev curr : string) :
  should_join prev curr = Spec.continues prev curr.
Proof.
  unfold should_join, Spec.continues, Spec.ends_in_terminal.
  destruct prev as [|p prev']; [reflexivity|].
  destruct curr as [|c curr']; [reflexivity|].
  cbn [truthy negb orb].
  change ["."; "!"; "?"; String DQUOTE ""; "'"]
    with (map (fun c => String c "") Spec.terminal).
  rewrite endswith_any_chars. reflexivity.
Qed.

End Joiner.

(** ** The citation stripper *)

Section Citations.

Abbreviation quiet := (fun ln => Spec.citation_start ln = false).

(** What the loop of [strip_trailing_citations] finds. *)
Lemma citations_index_spec (lines : list string) : forall i,
  match citations_index i lines with
  | Some j =>
      exists pre ln post,
        lines = pre ++ ln :: post /\ j = i + length pre
        /\ Forall quiet pre /\ Spec.citation_start ln = true
  | None => Forall quiet lines
  end.
Proof.
  induction lines as [|ln rest IH]; intros i; simpl; [constructor|].
  assert (Hhere : forall b, Spec.citation_start ln = b ->
    match (if b then Some i else citations_index (S i) rest) with
    | Some j =>
        exists pre l post,
          ln :: rest = pre ++ l :: post /\ j = i + length pre
          /\ Forall quiet pre /\ Spec.citation_start l = true
    | None => Forall quiet (ln :: rest)
    end).
  { intros [|] Hb.
    - exists [], ln, rest. simpl. repeat split; auto.
    - specialize (IH (S i)). destruct (citations_index (S i) rest) as [j|].
      + destruct IH as (pre & l & post & -> & -> & Hq & Hl).
        exists (ln :: pre), l, post. simpl. repeat split; auto; lia.
      + constructor; assumption. }
  assert (Hcs : Spec.citation_start ln
                = String.prefix "citations" (lower (strip ln))
                  || (String.prefix "http://" (strip ln)
                      || String.prefix "https://" (strip ln)
                      || String.prefix "www." (strip ln))).
  { unfold Spec.citation_start. cbv zeta. rewrite !orb_assoc. reflexivity. }
  unfold startswith, Re.http_url, startswith.
  destruct (strip ln) as [|c s] eqn:Es.
  - simpl. apply (Hhere false). rewrite Hcs. reflexivity.
  - cbn [truthy negb].
    destruct (String.prefix "citations" (lower (String c s))) eqn:E1.
    + apply (Hhere true). rewrite Hcs. reflexivity.
    + rewrite orb_false_l in Hcs. rewrite <- Hcs.
      apply (Hhere (Spec.citation_start ln)). reflexivity.
Qed.

(** The result is the part of the input before its first line that
    begins a citation block. *)
Lemma strip_trailing_citations_prefix (lines : list string) :
  exists pre post,
    lines = pre ++ post
    /\ strip_trailing_citations lines = pre
    /\ Forall quiet pre
    /\ match post with
       | [] => True
       | ln :: _ => Spec.citation_start ln = true
       end.
Proof.
  destruct lines as [|l0 rest].
  - exists [], []. simpl. auto.
  - unfold strip_trailing_citations.
    pose proof (citations_index_spec (l0 :: rest) 0) as H.
    destruct (citations_index 0 (l0 :: rest)) as [j|].
    + destruct H as (pre & ln & post & E & -> & Hq & Hl).
      exists pre, (ln :: post). rewrite E. simpl.
      rewrite take_app_length. auto.
    + exists (l0 :: rest), []. rewrite app_nil_r. auto.
Qed.

Lemma strip_trailing_citations_quiet (lines : list string) :
  Forall quiet lines -> strip_trailing_citations lines = lines.
Proof.
  intros Hq. destruct (strip_trailing_citations_prefix lines)
    as (pre & post & E & -> & _ & Hpost).
  destruct post as [|ln post']; [rewrite app_nil_r in E; auto|].
  rewrite E in Hq. apply Forall_app in Hq as [_ Hq].
  inversion Hq; subst. congruence.
Qed.

Lemma before_citations_app (pre post : list string) :
  Forall quiet pre ->
  match post with [] => True | ln :: _ => Spec.citation_start ln = true end ->
  Spec.before_citations (pre ++ post) = pre.
Proof.
  induction 1 as [|ln pre Hq _ IH]; intros Hpost; simpl.
  - destruct post as [|ln post]; simpl; [reflexivity | rewrite Hpost; reflexivity].
  - rewrite Hq, IH by assumption. reflexivity.
Qed.

End Citations.

(** ** The line loop *)

Section Loop.

Variable bold_candidates : gset string.
Variable source filename : string.

Lemma doc_text_stripped (content_lines : list string) :
  strip (doc_text content_lines) = doc_text content_lines.
Proof.
  unfold doc_text.
  destruct (fold_left paragraph_step content_lines ([], [])) as [ps buf].
  apply strip_idem.
Qed.

(** A flush appends at most one document, and only a good one. *)
Lemma flush_section_emits docs sec body title :
  exists new,
    flush_section docs sec body source filename title = docs ++ new
    /\ Forall (Spec.emitted_ok source filename) new.
Proof.
  unfold flush_section.
  destruct sec as [sec|]; [|exists []; rewrite app_nil_r; auto].
  destruct (existsb _ body); [|exists []; rewrite app_nil_r; auto].
  destruct (truthy (doc_text (strip_trailing_citations body))) eqn:E;
    [|exists []; rewrite app_nil_r; auto].
  eexists [_]. split; [reflexivity|].
  constructor; [|constructor].
  unfold Spec.emitted_ok. simpl. repeat split.
  rewrite doc_text_stripped. apply truthy_true. exact E.
Qed.

Lemma line_step_emits st line :
  exists new,
    curr_docs (line_step bold_candidates source filename st line)
    = curr_docs st ++ new
    /\ Forall (Spec.emitted_ok source filename) new.
Proof.
  assert (Hsame : exists new, curr_docs st = curr_docs st ++ new
                    /\ Forall (Spec.emitted_ok source filename) new)
    by (exists []; rewrite app_nil_r; auto).
  unfold line_step.
  destruct (negb (truthy (strip (rstrip line)))).
  - destruct (current_section st); exact Hsame.
  - destruct (Re.section_pattern (strip (rstrip line))) as [[sec rest0]|].
    + destruct (bool_decide _ && looks_like_title (strip rest0));
        simpl; apply flush_section_emits.
    + destruct (current_section st); exact Hsame.
Qed.

Lemma fold_line_step_emits lines : forall st,
  exists new,
    curr_docs (fold_left (line_step bold_candidates source filename) lines st)
    = curr_docs st ++ new
    /\ Forall (Spec.emitted_ok source filename) new.
Proof.
  induction lines as [|line rest IH]; intros st; simpl.
  - exists []. rewrite app_nil_r. auto.
  - destruct (line_step_emits st line) as (n1 & E1 & F1).
    destruct (IH (line_step bold_candidates source filename st line))
      as (n2 & E2 & F2).
    exists (n1 ++ n2). rewrite E2, E1, app_assoc. split; [reflexivity|].
    apply Forall_app; auto.
Qed.

Lemma scan_lines_emits st lines :
  exists new,
    scan_lines bold_candidates source filename st lines = curr_docs st ++ new
    /\ Forall (Spec.emitted_ok source filename) new.
Proof.
  unfold scan_lines.
  destruct (fold_line_step_emits lines st) as (n1 & E1 & F1).
  set (st' := fold_left _ lines st) in *.
  destruct (flush_section_emits (curr_docs st') (current_section st')
              (current_text_lines st') (section_title st')) as (n2 & E2 & F2).
  exists (n1 ++ n2). rewrite E2, E1, app_assoc. split; [reflexivity|].
  apply Forall_app; auto.
Qed.

(** Outside a section, a line that is not a heading changes nothing. *)
Lemma line_step_outside st line :
  current_section st = None -> Spec.not_heading line ->
  line_step bold_candidates source filename st line = st.
Proof.
  unfold Spec.not_heading, line_step. intros Hs Hn.
  rewrite strip_rstrip, Hn, Hs.
  destruct (negb (truthy (strip line))); reflexivity.
Qed.

Lemma fold_line_step_outside lines : forall st,
  current_section st = None -> Forall Spec.not_heading lines ->
  fold_left (line_step bold_candidates source filename) lines st = st.
Proof.
  induction lines as [|line rest IH]; intros st Hs Hn; simpl; [reflexivity|].
  inversion Hn; subst. rewrite line_step_outside by assumption. auto.
Qed.

(** The lines before the first heading leave no trace in the output. *)
Lemma scan_lines_discards_preamble docs preamble lines :
  Forall Spec.not_heading preamble ->
  scan_lines bold_candidates source filename (file_start docs) (preamble ++ lines)
  = scan_lines bold_candidates source filename (file_start docs) lines.
Proof.
  intros Hn. unfold scan_lines.
  rewrite fold_left_app.
  rewrite (fold_line_step_outside preamble (file_start docs)) by auto.
  reflexivity.
Qed.

Lemma scan_lines_no_heading docs lines :
  Forall Spec.not_heading lines ->
  scan_lines bold_candidates source filename (file_start docs) lines = docs.
Proof.
  intros Hn. unfold scan_lines.
  rewrite fold_line_step_outside by auto. reflexivity.
Qed.

Lemma section_pattern_nonblank (t sec rest0 : string) :
  Re.section_pattern t = Some (sec, rest0) -> truthy t = true.
Proof. destruct t; [discriminate | reflexivity]. Qed.

(** What a heading line does: flush, then open the new section. *)
Lemma line_step_heading st line sec rest0 :
  Re.section_pattern (strip line) = Some (sec, rest0) ->
  line_step bold_candidates source filename st line
  = let docs := flush_section (curr_docs st) (current_section st)
                  (current_text_lines st) source filename (section_title st) in
    if bool_decide (strip line ∈ bold_candidates) && looks_like_title (strip rest0)
    then {| curr_docs := docs; current_section := Some sec;
            section_title := Some (strip rest0); current_text_lines := [] |}
    else {| curr_docs := docs; current_section := Some sec;
            section_title := section_title st;
            current_text_lines :=
              if truthy (strip rest0) then [strip rest0] else [] |}.
Proof.
  intros H. unfold line_step. rewrite strip_rstrip, H.
  rewrite (section_pattern_nonblank _ _ _ H). reflexivity.
Qed.

(** Inside a section, a line that is not a heading leaves the documents,
    the section number and the title alone. *)
Lemma line_step_body st line sec :
  current_section st = Some sec -> Spec.not_heading line ->
  let st' := line_step bold_candidates source filename st line in
  curr_docs st' = curr_docs st /\ current_section st' = Some sec
  /\ section_title st' = section_title st.
Proof.
  unfold Spec.not_heading, line_step. intros Hs Hn.
  rewrite strip_rstrip, Hn, Hs.
  destruct (negb (truthy (strip line))); simpl; auto.
Qed.

Lemma fold_line_step_body lines : forall st sec,
  current_section st = Some sec -> Forall Spec.not_heading lines ->
  let st' := fold_left (line_step bold_candidates source filename) lines st in
  curr_docs st' = curr_docs st /\ current_section st' = Some sec
  /\ section_title st' = section_title st.
Proof.
  induction lines as [|line rest IH]; intros st sec Hs Hn; simpl; [auto|].
  inversion Hn; subst.
  destruct (line_step_body st line sec Hs) as (E1 & E2 & E3); [assumption|].
  destruct (IH _ sec E2) as (F1 & F2 & F3); [assumption|].
  simpl in F1, F2, F3. rewrite F1, F2, F3. auto.
Qed.

(** The title after a line is the one the line sets, if it sets one. *)
Lemma line_step_title st line :
  section_title (line_step bold_candidates source filename st line)
  = match Spec.accepted_title bold_candidates line with
    | Some t => Some t
    | None => section_title st
    end.
Proof.
  unfold Spec.accepted_title.
  destruct (Re.section_pattern (strip line)) as [[sec rest0]|] eqn:E.
  - rewrite (line_step_heading st line sec rest0 E). cbv zeta.
    destruct (bool_decide _ && looks_like_title (strip rest0)); reflexivity.
  - unfold line_step. rewrite strip_rstrip, E.
    destruct (negb (truthy (strip line))), (current_section st); reflexivity.
Qed.

Lemma fold_line_step_title lines : forall st,
  section_title (fold_left (line_step bold_candidates source filename) lines st)
  = match Spec.title_in_force bold_candidates lines with
    | Some t => Some t
    | None => section_title st
    end.
Proof.
  unfold Spec.title_in_force.
  induction lines as [|line rest IH]; intros st; simpl; [reflexivity|].
  rewrite IH, line_step_title.
  destruct (Spec.accepted_title bold_candidates line) as [t|]; [|reflexivity].
  rewrite last_cons. destruct (last _); reflexivity.
Qed.

(** The metadata of what a flush appends. *)
Lemma flush_section_metadata docs sec body title :
  exists new,
    flush_section docs (Some sec) body source filename title = docs ++ new
    /\ Forall (fun d => Doc.section d = sec
                        /\ Doc.section_title d = or_empty title) new.
Proof.
  unfold flush_section.
  destruct (existsb _ body); [|exists []; rewrite app_nil_r; auto].
  destruct (truthy (doc_text (strip_trailing_citations body)));
    [|exists []; rewrite app_nil_r; auto].
  eexists [_]. split; [reflexivity|]. repeat constructor.
Qed.

End Loop.

(** ** Lines without line feeds and the heading pattern *)

Section Headings.

Lemma nolf_lstrip (s : string) : nolf s = true -> nolf (lstrip s) = true.
Proof.
  induction s as [|c r IH]; simpl; [auto|].
  intros H. apply andb_true_iff in H as [Hc Hr].
  destruct (isspace c); [auto|]. simpl. rewrite Hc, Hr. reflexivity.
Qed.

Lemma nolf_rstrip (s : string) : nolf s = true -> nolf (rstrip s) = true.
Proof.
  induction s as [|c r IH]; simpl; [auto|].
  intros H. apply andb_true_iff in H as [Hc Hr].
  destruct (isspace c && negb (truthy (rstrip r))); [reflexivity|].
  simpl. rewrite Hc, IH by assumption. reflexivity.
Qed.

Lemma nolf_strip (s : string) : nolf s = true -> nolf (strip s) = true.
Proof. intros H. apply nolf_lstrip, nolf_rstrip, H. Qed.

Lemma not_linebreak_not_LF (c : ascii) :
  islinebreak c = false -> Ascii.eqb c LF = false.
Proof.
  intros H. destruct (Ascii.eqb_spec c LF) as [->|]; [|reflexivity].
  vm_compute in H. discriminate.
Qed.

Lemma segments_nolf (s : string) : forall after_cr,
  Forall (fun seg => nolf seg = true) (segments after_cr s).
Proof.
  induction s as [|c r IH]; intros after_cr; simpl.
  - repeat constructor.
  - destruct (after_cr && is_code 10 c); [apply IH|].
    destruct (islinebreak c) eqn:E.
    + constructor; [reflexivity | apply IH].
    + apply not_linebreak_not_LF in E. specialize (IH false).
      destruct (segments false r) as [|seg segs].
      * constructor; [simpl; rewrite E; reflexivity | constructor].
      * inversion IH; subst. constructor; [simpl; rewrite E; auto | auto].
Qed.

Lemma In_removelast {A} (x : A) (l : list A) : In x (removelast l) -> In x l.
Proof.
  induction l as [|a l IH]; simpl; [auto|].
  destruct l as [|b l']; [simpl; tauto|].
  intros [->|H]; [left; reflexivity | right; apply IH, H].
Qed.

(** No line of [splitlines] holds a line feed. *)
Lemma splitlines_nolf (s line : string) :
  In line (splitlines s) -> nolf line = true.
Proof.
  unfold splitlines. intros H.
  assert (Hin : In line (segments false s)).
  { destruct (last (segments false s)) as [[|]|]; auto using In_removelast. }
  pose proof (segments_nolf s false) as F.
  rewrite Forall_forall in F. apply F. apply list_elem_of_In, Hin.
Qed.

Lemma dot_star_end_nolf (s : string) :
  nolf s = true -> Re.dot_star_end s = Some s.
Proof.
  induction s as [|c r IH]; simpl; [reflexivity|].
  intros H. apply andb_true_iff in H as [Hc Hr].
  apply negb_true_iff in Hc. rewrite Hc, IH by assumption. reflexivity.
Qed.

(** The section number and the tail make up the string. *)
Lemma section_span_split (s : string) :
  s = fst (Re.section_span s) +:+ snd (Re.section_span s).
Proof.
  induction s as [|c r IH]; [reflexivity|].
  cbn [Re.section_span].
  destruct (isdecimal c).
  - destruct (Re.section_span r) as [sec tail]. simpl in *.
    change (String c sec +:+ tail) with (String c (sec +:+ tail)). congruence.
  - destruct (Ascii.eqb c "."); [|reflexivity].
    destruct r as [|d r']; [reflexivity|].
    destruct (isdecimal d); [|reflexivity].
    destruct (Re.section_span (String d r')) as [sec tail]. simpl in *.
    change (String c sec +:+ tail) with (String c (sec +:+ tail)). congruence.
Qed.

(** The section number is made of digits and dots. *)
Lemma section_span_chars (s : string) :
  all_chars (fun c => isdecimal c || Ascii.eqb c ".") (fst (Re.section_span s)) = true.
Proof.
  induction s as [|c r IH]; [reflexivity|].
  cbn [Re.section_span].
  destruct (isdecimal c) eqn:Ec.
  - destruct (Re.section_span r) as [sec tail]. simpl in *. rewrite Ec, IH. reflexivity.
  - destruct (Ascii.eqb c ".") eqn:Ed; [|reflexivity].
    destruct r as [|d r']; [reflexivity|].
    destruct (isdecimal d); [|reflexivity].
    destruct (Re.section_span (String d r')) as [sec tail]. simpl in *.
    rewrite Ec, Ed, IH. reflexivity.
Qed.

Lemma section_span_nolf (s : string) :
  nolf s = true -> nolf (snd (Re.section_span s)) = true.
Proof.
  induction s as [|c r IH]; [reflexivity|].
  intros H. pose proof H as H'. simpl in H'.
  apply andb_true_iff in H' as [_ Hr].
  cbn [Re.section_span].
  destruct (isdecimal c).
  - destruct (Re.section_span r) as [sec tail]. simpl in *. auto.
  - destruct (Ascii.eqb c "."); [|exact H].
    destruct r as [|d r']; [exact H|].
    destruct (isdecimal d); [|exact H].
    destruct (Re.section_span (String d r')) as [sec tail]. simpl in *. auto.
Qed.

Lemma skip_separator_nolf (s : string) :
  nolf s = true -> nolf (Re.skip_separator s) = true.
Proof.
  destruct s as [|c r]; [reflexivity|]. simpl. intros H.
  destruct (Ascii.eqb c "." || Ascii.eqb c ")"); [|exact H].
  apply andb_true_iff in H as [_ Hr]. apply nolf_lstrip, Hr.
Qed.

(** On a string without line feed that starts with a digit the heading
    pattern matches: the number starts with that digit, and the rest is
    what follows the number, less the separator. *)
Lemma section_pattern_digit (c : ascii) (r : string) :
  isdecimal c = true -> nolf (String c r) = true ->
  exists sec tail,
    String c r = String c sec +:+ tail
    /\ Re.section_pattern (String c r) = Some (String c sec, Re.skip_separator tail).
Proof.
  intros Hc Hn.
  pose proof (section_span_split (String c r)) as Hsplit.
  pose proof (section_span_nolf (String c r) Hn) as Htail.
  unfold Re.section_pattern. rewrite Hc.
  destruct (Re.section_span (String c r)) as [sec tail] eqn:E.
  simpl in Hsplit, Htail.
  rewrite dot_star_end_nolf by (apply skip_separator_nolf, Htail).
  cbn [Re.section_span] in E. rewrite Hc in E.
  destruct (Re.section_span r) as [sec' tail']. inversion E; subst.
  exists sec', tail. split; [exact Hsplit | reflexivity].
Qed.

End Headings.

(** ** Whole files *)

Section Files.

Lemma split_sections_emits docs filename lines bold docs' :
  split_sections docs filename lines bold = Ok docs' ->
  exists src new,
    source_label lines filename = Ok src
    /\ docs' = docs ++ new
    /\ Forall (Spec.emitted_ok src filename) new.
Proof.
  unfold split_sections.
  destruct (source_label lines filename) as [src|e] eqn:E; [|discriminate].
  cbn. intros [= <-].
  destruct (scan_lines_emits bold src filename (file_start docs) lines)
    as (new & Hn & F).
  exists src, new. auto.
Qed.

Lemma emitted_ok_body src filename d :
  Spec.emitted_ok src filename d -> Spec.body_nonempty d.
Proof. intros (_ & _ & H). exact H. Qed.

Lemma documents_from_body_nonempty pdfs : forall docs docs',
  Forall Spec.body_nonempty docs ->
  documents_from docs pdfs = Ok docs' ->
  Forall Spec.body_nonempty docs'.
Proof.
  induction pdfs as [|pdf rest IH]; intros docs docs' F; simpl.
  - intros [= <-]. exact F.
  - destruct (file_documents docs pdf) as [d1|e] eqn:E; [|discriminate].
    cbn. apply IH.
    apply split_sections_emits in E as (src & new & _ & -> & Fn).
    apply Forall_app. split; [exact F|].
    eapply Forall_impl; [exact Fn|]. apply emitted_ok_body.
Qed.

(** The label of a file with a first line. *)
Lemma source_label_first (line0 : string) (rest : list string) (filename : string) :
  source_label (line0 :: rest) filename
  = Ok match Re.section_pattern (strip line0) with
       | None => strip line0
       | Some _ => OsPath.stem filename
       end.
Proof. simpl. destruct (Re.section_pattern (strip line0)); reflexivity. Qed.

Lemma split_sections_first docs filename line0 rest bold :
  exists new,
    split_sections docs filename (line0 :: rest) bold = Ok (docs ++ new)
    /\ Forall (Spec.emitted_ok
                 match Re.section_pattern (strip line0) with
                 | None => strip line0
                 | Some _ => OsPath.stem filename
                 end filename) new.
Proof.
  unfold split_sections. rewrite source_label_first. cbn.
  match goal with |- context [scan_lines bold ?src _ _ _] =>
    destruct (scan_lines_emits bold src filename (file_start docs) (line0 :: rest))
      as (new & -> & F)
  end.
  exists new. auto.
Qed.

(** A file with lines and without heading adds no document. *)
Lemma split_sections_no_heading docs filename lines bold :
  lines <> [] -> Forall Spec.not_heading lines ->
  split_sections docs filename lines bold = Ok docs.
Proof.
  intros Hne Hn. destruct lines as [|line0 rest]; [congruence|].
  unfold split_sections. rewrite source_label_first. cbn.
  rewrite scan_lines_no_heading by assumption. reflexivity.
Qed.

Lemma blank_not_heading (line : string) : strip line = "" -> Spec.not_heading line.
Proof. unfold Spec.not_heading. intros ->. reflexivity. Qed.

Lemma flush_section_markers n docs sec src filename title :
  flush_section docs sec (repeat "" n) src filename title = docs.
Proof.
  unfold flush_section. destruct sec; [|reflexivity].
  replace (existsb (fun t => truthy (strip t)) (repeat "" n)) with false;
    [reflexivity|].
  induction n as [|n IH]; simpl; auto.
Qed.

End Files.

(** ** The claims of the specification *)

(** C1, as the code has it.  On the five lines of the end-to-end scenario,
    with an empty bold line set and the file name laws.pdf, the splitter
    emits exactly two documents, numbered 1 and 2, untitled, with source
    laws; the body of each is the rest of its heading followed by the line
    below it: the rest of a heading that is not a title seeds the body, and
    the next line is joined to it. *)
Theorem end_to_end_scenario :
  split_sections [] "laws.pdf" Scenario.laws_lines ∅ = Ok Scenario.laws_as_built
  /\ create_documents [Scenario.laws_pdf] = Ok Scenario.laws_as_built.
Proof. split; vm_compute; reflexivity. Qed.

(** C1, as stated, fails: the two documents do not have the bodies that the
    specification lists. *)
Lemma laws_scenario_not_as_specified :
  split_sections [] "laws.pdf" Scenario.laws_lines ∅
  <> Ok Scenario.laws_as_specified.
Proof. vm_compute. intros H. discriminate H. Qed.

(** A file whose first line is blank is processed without error, and it
    adds no document when no line of it is a heading. *)
Lemma blank_first_line_completes
    (docs : list Doc.t) (filename line0 : string) (rest : list string)
    (bold : gset string) :
  strip line0 = "" ->
  exists new,
    split_sections docs filename (line0 :: rest) bold = Ok (docs ++ new)
    /\ (Forall Spec.not_heading rest -> new = []).
Proof.
  intros Hblank.
  destruct (split_sections_first docs filename line0 rest bold) as (new & E & _).
  exists new. split; [exact E|].
  intros Hn.
  rewrite split_sections_no_heading in E.
  - injection E as E. rewrite <- (app_nil_r docs) in E at 1.
    apply app_inv_head in E. congruence.
  - discriminate.
  - constructor; [apply blank_not_heading, Hblank | exact Hn].
Qed.

Lemma blank_first_line_completes_witness :
  strip "" = ""
  /\ exists new,
       split_sections [] "notes.pdf" [""; "No numbered heading here."] ∅
       = Ok ([] ++ new)
       /\ (Forall Spec.not_heading ["No numbered heading here."] -> new = []).
Proof.
  split; [reflexivity|].
  apply (blank_first_line_completes [] "notes.pdf" "" ["No numbered heading here."] ∅).
  reflexivity.
Defined.

(** C2, at the inputs where the code departs from it.  After an empty
    first line the source label is the empty string, not the file name
    without its extension; and a file without lines is not processed to
    the end: reading its first line raises. *)
Lemma blank_first_line_source_not_stem :
  (exists d,
     split_sections [] "laws.pdf" [""; "1. Theft is bad."] ∅ = Ok [d]
     /\ Doc.source d <> OsPath.stem "laws.pdf")
  /\ split_sections [] "laws.pdf" [] ∅ = Raise IndexError.
Proof.
  split; [|reflexivity].
  exists (Scenario.document "1" "" "" "laws.pdf" "Theft is bad.").
  split; [vm_compute; reflexivity | vm_compute; discriminate].
Qed.

(** *** The sections of a file, one by one *)

Section Sections.

Variable bold : gset string.
Variable source filename : string.

(** Either no line is a heading, or there is a last heading. *)
Lemma last_heading_split (lines : list string) :
  Forall Spec.not_heading lines
  \/ exists before line sec rest0 body,
       lines = before ++ line :: body
       /\ Re.section_pattern (strip line) = Some (sec, rest0)
       /\ Forall Spec.not_heading body.
Proof.
  induction lines as [|x rest IH]; [left; constructor|].
  destruct IH as [Hn|(before & line & sec & rest0 & body & -> & Hh & Hb)].
  - destruct (Re.section_pattern (strip x)) as [[sec rest0]|] eqn:E.
    + right. exists [], x, sec, rest0, rest. auto.
    + left. constructor; assumption.
  - right. exists (x :: before), line, sec, rest0, body. auto.
Qed.

Lemma title_in_force_snoc (before : list string) (line : string) :
  Spec.title_in_force bold (before ++ [line])
  = match Spec.accepted_title bold line with
    | Some t => Some t
    | None => Spec.title_in_force bold before
    end.
Proof.
  unfold Spec.title_in_force. rewrite omap_app, last_app. simpl.
  destruct (Spec.accepted_title bold line); reflexivity.
Qed.

Lemma flush_section_one docs sec body title :
  exists new,
    flush_section docs (Some sec) body source filename title = docs ++ new
    /\ (new = []
        \/ exists d, new = [d] /\ Doc.section d = sec
                     /\ Doc.section_title d = or_empty title).
Proof.
  unfold flush_section.
  destruct (existsb _ body); [|exists []; rewrite app_nil_r; auto].
  destruct (truthy _); [|exists []; rewrite app_nil_r; auto].
  eexists [_]. split; [reflexivity|]. right. eexists. repeat split.
Qed.

(** The documents of the file up to the end of a section are those of the
    lines before its heading, then what the section gives: nothing, or
    one document with the number of the heading and the title in force
    after the heading. *)
Lemma scan_lines_section (before : list string) (line sec rest0 : string)
    (body : list string) :
  Re.section_pattern (strip line) = Some (sec, rest0) ->
  Forall Spec.not_heading body ->
  exists new,
    scan_lines bold source filename (file_start []) (before ++ line :: body)
    = scan_lines bold source filename (file_start []) before ++ new
    /\ (new = []
        \/ exists d, new = [d] /\ Doc.section d = sec
             /\ Doc.section_title d
                = or_empty (Spec.title_in_force bold (before ++ [line]))).
Proof.
  intros Hhead Hbody.
  unfold scan_lines at 1. rewrite fold_left_app. cbn [fold_left].
  set (st0 := fold_left (line_step bold source filename) before (file_start [])).
  set (st1 := line_step bold source filename st0 line).
  assert (Htitle : section_title st1 = Spec.title_in_force bold (before ++ [line])).
  { unfold st1, st0.
    change (line_step bold source filename
              (fold_left (line_step bold source filename) before (file_start [])) line)
      with (fold_left (line_step bold source filename) [line]
              (fold_left (line_step bold source filename) before (file_start []))).
    rewrite <- fold_left_app, fold_line_step_title.
    destruct (Spec.title_in_force bold (before ++ [line])); reflexivity. }
  assert (Hst1 : curr_docs st1
                 = scan_lines bold source filename (file_start []) before
                 /\ current_section st1 = Some sec).
  { unfold st1. rewrite (line_step_heading bold source filename st0 line sec rest0 Hhead).
    cbv zeta. destruct (bool_decide _ && looks_like_title (strip rest0)); split; reflexivity. }
  destruct Hst1 as [Hdocs Hsec].
  destruct (fold_line_step_body bold source filename body st1 sec Hsec Hbody)
    as (E1 & E2 & E3).
  cbv zeta in E1, E2, E3. rewrite E1, E2, E3, Hdocs, Htitle.
  apply flush_section_one.
Qed.

Lemma scan_lines_sections (n : nat) : forall (lines : list string) (d : Doc.t),
  length lines <= n ->
  In d (scan_lines bold source filename (file_start []) lines) ->
  exists before line sec rest0 body after later,
    lines = before ++ line :: body ++ after
    /\ Re.section_pattern (strip line) = Some (sec, rest0)
    /\ Forall Spec.not_heading body
    /\ match after with
       | [] => True
       | next :: _ => Re.section_pattern (strip next) <> None
       end
    /\ scan_lines bold source filename (file_start []) lines
       = scan_lines bold source filename (file_start []) before ++ d :: later
    /\ Doc.section d = sec
    /\ Doc.section_title d
       = or_empty match Spec.accepted_title bold line with
                  | Some t => Some t
                  | None => Spec.title_in_force bold before
                  end.
Proof.
  induction n as [|n IH]; intros lines d Hlen Hin.
  - destruct lines; [|simpl in Hlen; lia]. destruct Hin.
  - destruct (last_heading_split lines)
      as [Hn|(before & line & sec & rest0 & body & -> & Hh & Hb)].
    + rewrite scan_lines_no_heading in Hin by assumption. destruct Hin.
    + destruct (scan_lines_section before line sec rest0 body Hh Hb)
        as (new & E & Hnew).
      rewrite E in Hin. apply in_app_or in Hin as [Hin|Hin].
      * assert (Hlb : length before <= n).
        { rewrite length_app in Hlen. simpl in Hlen. lia. }
        destruct (IH before d Hlb Hin)
          as (b' & l' & s' & r' & body' & after' & later' & Eb & Hh' & Hb' & Ha' & Es & H1 & H2).
        exists b', l', s', r', body', (after' ++ line :: body), (later' ++ new).
        split; [rewrite Eb at 1; repeat (rewrite <- app_assoc; simpl); reflexivity|].
        split; [exact Hh'|]. split; [exact Hb'|]. split.
        { destruct after' as [|next rest]; simpl; [congruence | exact Ha']. }
        split; [rewrite E, Es, <- app_assoc; reflexivity|].
        split; assumption.
      * destruct Hnew as [->|(d' & -> & H1 & H2)]; [destruct Hin|].
        destruct Hin as [<-|[]].
        exists before, line, sec, rest0, body, [], [].
        rewrite app_nil_r, title_in_force_snoc in *.
        repeat split; auto.
Qed.

End Sections.

(** C3, amended.  Every document that the line loop emits is the document
    of one section of the file, cut out by a heading [line], the lines
    [body] up to the next heading or the end of the file, the lines
    [before] and [after]; it stands in the output after the documents of
    the lines before its heading.  When the heading was not accepted as a
    title, the title of the document is the title in force before the
    heading: that of the last earlier heading of the file that was accepted
    as one, and the empty string when there is none.  (When the heading was
    accepted, it is the title that the heading sets.) *)
Theorem section_title_carried_over
    (bold : gset string) (source filename : string) (lines : list string)
    (d : Doc.t) :
  In d (scan_lines bold source filename (file_start []) lines) ->
  exists before line sec rest0 body after later,
    lines = before ++ line :: body ++ after
    /\ Re.section_pattern (strip line) = Some (sec, rest0)
    /\ Forall Spec.not_heading body
    /\ match after with
       | [] => True
       | next :: _ => Re.section_pattern (strip next) <> None
       end
    /\ scan_lines bold source filename (file_start []) lines
       = scan_lines bold source filename (file_start []) before ++ d :: later
    /\ Doc.section d = sec
    /\ Doc.section_title d
       = or_empty match Spec.accepted_title bold line with
                  | Some t => Some t
                  | None => Spec.title_in_force bold before
                  end.
Proof.
  intros Hin.
  apply (scan_lines_sections bold source filename (length lines) lines d);
    [reflexivity | exact Hin].
Qed.

Lemma section_title_carried_over_witness :
  In (Scenario.document "1" "" "laws" "laws.pdf" "a plain heading Body one.")
     (scan_lines Sample.plain_then_titled_bold "laws" "laws.pdf" (file_start [])
        Sample.plain_then_titled)
  /\ exists before line sec rest0 body after later,
       Sample.plain_then_titled = before ++ line :: body ++ after
       /\ Re.section_pattern (strip line) = Some (sec, rest0)
       /\ Forall Spec.not_heading body
       /\ match after with
          | [] => True
          | next :: _ => Re.section_pattern (strip next) <> None
          end
       /\ scan_lines Sample.plain_then_titled_bold "laws" "laws.pdf" (file_start [])
            Sample.plain_then_titled
          = scan_lines Sample.plain_then_titled_bold "laws" "laws.pdf" (file_start [])
              before
            ++ Scenario.document "1" "" "laws" "laws.pdf" "a plain heading Body one."
               :: later
       /\ Doc.section
            (Scenario.document "1" "" "laws" "laws.pdf" "a plain heading Body one.")
          = sec
       /\ Doc.section_title
            (Scenario.document "1" "" "laws" "laws.pdf" "a plain heading Body one.")
          = or_empty match Spec.accepted_title Sample.plain_then_titled_bold line with
                     | Some t => Some t
                     | None => Spec.title_in_force Sample.plain_then_titled_bold before
                     end.
Proof.
  assert (H : In (Scenario.document "1" "" "laws" "laws.pdf" "a plain heading Body one.")
                (scan_lines Sample.plain_then_titled_bold "laws" "laws.pdf"
                   (file_start []) Sample.plain_then_titled))
    by (vm_compute; left; reflexivity).
  split; [exact H|].
  exact (section_title_carried_over Sample.plain_then_titled_bold "laws" "laws.pdf"
           Sample.plain_then_titled _ H).
Defined.

(** C3, as stated, fails: the heading of section 2 is not accepted as a
    title, yet its document has the title of section 1. *)
Lemma plain_heading_keeps_earlier_title :
  Spec.accepted_title Scenario.titled_then_plain_bold "2. second part" = None
  /\ split_sections [] "laws.pdf" Scenario.titled_then_plain
       Scenario.titled_then_plain_bold
     = Ok [Scenario.document "1" "Definitions" "laws" "laws.pdf" "Body one.";
           Scenario.document "2" "Definitions" "laws" "laws.pdf"
             "second part Body two."]
  /\ "Definitions" <> "".
Proof. split; [|split]; [vm_compute; reflexivity .. | discriminate]. Qed.

(** C4, amended.  For a file whose first line is not blank, the source of
    every document of the file is the first non-blank line of the file,
    which is then its first line, with the white space around it removed,
    when the line so trimmed does not match the heading pattern, and the
    file name without its extension otherwise; it is the same for all the
    documents of the file. *)
Theorem source_label_from_first_line
    (docs : list Doc.t) (filename line0 : string) (rest : list string)
    (bold : gset string) :
  strip line0 <> "" ->
  exists first new,
    Spec.first_nonblank (line0 :: rest) = Some first
    /\ split_sections docs filename (line0 :: rest) bold = Ok (docs ++ new)
    /\ Forall (fun d => Doc.source d
                        = match Re.section_pattern (strip first) with
                          | None => strip first
                          | Some _ => OsPath.stem filename
                          end) new.
Proof.
  intros Hfirst.
  destruct (split_sections_first docs filename line0 rest bold) as (new & E & F).
  exists line0, new. split; [|split; [exact E|]].
  - simpl. apply truthy_true in Hfirst. rewrite Hfirst. reflexivity.
  - eapply Forall_impl; [exact F|]. intros d (Hsrc & _). exact Hsrc.
Qed.

Lemma source_label_from_first_line_witness :
  strip "Laws of the Seven Kingdoms" <> ""
  /\ exists first new,
       Spec.first_nonblank
         ("Laws of the Seven Kingdoms" :: ["1. Theft is bad."; "2. So is arson."])
       = Some first
       /\ split_sections [] "laws.pdf"
            ("Laws of the Seven Kingdoms" :: ["1. Theft is bad."; "2. So is arson."]) ∅
          = Ok ([] ++ new)
       /\ Forall (fun d => Doc.source d
                           = match Re.section_pattern (strip first) with
                             | None => strip first
                             | Some _ => OsPath.stem "laws.pdf"
                             end) new.
Proof.
  assert (H : strip "Laws of the Seven Kingdoms" <> "")
    by (vm_compute; discriminate).
  split; [exact H|].
  exact (source_label_from_first_line [] "laws.pdf" "Laws of the Seven Kingdoms"
           ["1. Theft is bad."; "2. So is arson."] ∅ H).
Defined.

(** C4, as stated, fails twice.  The first non-blank line of the first
    file is its second line, which is not a heading, yet the source is the
    empty first line; and the first line of the second file is not a
    heading, yet the source is not that line verbatim, but the line without
    the white space around it. *)
Lemma source_label_not_first_nonblank_verbatim :
  (Spec.first_nonblank [""; "Laws of the Realm"; "1. Theft is bad."]
   = Some "Laws of the Realm"
   /\ Spec.not_heading "Laws of the Realm"
   /\ exists d,
        split_sections [] "laws.pdf" [""; "Laws of the Realm"; "1. Theft is bad."] ∅
        = Ok [d]
        /\ Doc.source d <> "Laws of the Realm")
  /\ (Spec.not_heading "  Laws of the Realm "
      /\ exists d,
           split_sections [] "laws.pdf" ["  Laws of the Realm "; "1. Theft is bad."] ∅
           = Ok [d]
           /\ Doc.source d <> "  Laws of the Realm ").
Proof.
  split; [split; [reflexivity|] |]; (split; [vm_compute; reflexivity|]).
  - exists (Scenario.document "1" "" "" "laws.pdf" "Theft is bad.").
    split; [vm_compute; reflexivity | vm_compute; discriminate].
  - exists (Scenario.document "1" "" "Laws of the Realm" "laws.pdf" "Theft is bad.").
    split; [vm_compute; reflexivity | vm_compute; discriminate].
Qed.

(** C5.  No document that [create_documents] returns has a body that is
    empty once trimmed; and a flush of a buffer made of empty-string
    markers only adds nothing. *)
Theorem no_empty_body_emitted (pdfs : list Pdf) (docs : list Doc.t) :
  create_documents pdfs = Ok docs ->
  Forall Spec.body_nonempty docs
  /\ forall n cd sec src filename title,
       flush_section cd sec (repeat "" n) src filename title = cd.
Proof.
  intros H. split.
  - apply (documents_from_body_nonempty pdfs [] docs); [constructor | exact H].
  - intros. apply flush_section_markers.
Qed.

Lemma no_empty_body_emitted_witness :
  create_documents [Scenario.laws_pdf] = Ok Scenario.laws_as_built
  /\ Forall Spec.body_nonempty Scenario.laws_as_built
  /\ forall n cd sec src filename title,
       flush_section cd sec (repeat "" n) src filename title = cd.
Proof.
  assert (H : create_documents [Scenario.laws_pdf] = Ok Scenario.laws_as_built)
    by (vm_compute; reflexivity).
  split; [exact H|].
  exact (no_empty_body_emitted [Scenario.laws_pdf] Scenario.laws_as_built H).
Defined.

(** C6.  [should_join] is the continuation joiner of 4.2: false when either
    string is empty, and otherwise the first of the rules 1 to 4 that
    applies; the four fixtures of section 8 hold. *)
Theorem should_join_rules :
  (forall prev curr, should_join prev curr = Spec.continues prev curr)
  /\ (forall s, should_join "" s = false /\ should_join s "" = false)
  /\ should_join "The law is clear." "and binding." = true
  /\ should_join "This is final" "Next rule applies" = true
  /\ should_join "This is final." "5. Next rule" = false
  /\ should_join "This is final." "Citations: see below" = false.
Proof.
  split; [exact should_join_continues|].
  split; [|repeat split; vm_compute; reflexivity].
  intros s. split; [reflexivity|].
  unfold should_join. destruct s; reflexivity.
Qed.

(** C7.  [strip_trailing_citations] returns the longest prefix of its input
    that ends strictly before the first line whose trimmed form starts with
    the word citations, in any case, or has the shape of a bare URL; when
    there is no such line the prefix is the whole input.  The lines of the
    citation scenario strip to the first two, which assemble to the text
    of the first. *)
Theorem strip_trailing_citations_contract :
  (forall lines, strip_trailing_citations lines = Spec.before_citations lines)
  /\ (forall lines, exists pre post,
        lines = pre ++ post
        /\ strip_trailing_citations lines = pre
        /\ Forall (fun ln => Spec.citation_start ln = false) pre
        /\ match post with
           | [] => strip_trailing_citations lines = lines
           | ln :: _ => Spec.citation_start ln = true
           end)
  /\ strip_trailing_citations ["Some legal text."; ""; "Citations:"; "See also Law 4"]
     = ["Some legal text."; ""]
  /\ doc_text ["Some legal text."; ""] = "Some legal text.".
Proof.
  split; [|split; [|split; vm_compute; reflexivity]].
  - intros lines.
    destruct (strip_trailing_citations_prefix lines) as (pre & post & E & R & Hq & Hp).
    rewrite R. rewrite E at 1. symmetry. apply before_citations_app; assumption.
  - intros lines.
    destruct (strip_trailing_citations_prefix lines) as (pre & post & E & R & Hq & Hp).
    exists pre, post. repeat split; try assumption.
    destruct post as [|ln post']; [|exact Hp].
    rewrite app_nil_r in E. congruence.
Qed.

(** C8.  Stripping citations twice is stripping them once. *)
Theorem strip_trailing_citations_idempotent (lines : list string) :
  strip_trailing_citations (strip_trailing_citations lines)
  = strip_trailing_citations lines.
Proof.
  destruct (strip_trailing_citations_prefix lines) as (pre & post & _ & -> & Hq & _).
  apply strip_trailing_citations_quiet, Hq.
Qed.

(** C9, at the input where the code departs from it.  A text without any
    line has no line that matches the heading pattern, yet the file does
    not yield the empty output: reading its first line raises, and
    [create_documents] raises with it.  A file of two pages without text,
    which has one empty line, does yield the empty output. *)
Theorem file_without_lines_raises :
  splitlines "" = []
  /\ (forall docs filename bold, split_sections docs filename [] bold = Raise IndexError)
  /\ create_documents [Scenario.scan_pdf] = Raise IndexError
  /\ create_documents [Scenario.scan2_pdf] = Ok [].
Proof. repeat split. Qed.

(** * Further properties of the code *)

(** ** Where the metadata of a document comes from *)

Section Provenance.

Variable bold_candidates : gset string.
Variable source filename : string.
Variable all_lines : list string.

(** The number of [d] is that of a heading of the file, its title is empty
    or was set by a line of the file, and its text is trimmed. *)
Let traced (d : Doc.t) : Prop :=
  (exists line, In line all_lines /\ Outline.heading_number line = Some (Doc.section d))
  /\ (Doc.section_title d = ""
      \/ exists line, In line all_lines
           /\ Spec.accepted_title bold_candidates line = Some (Doc.section_title d))
  /\ strip (Doc.text d) = Doc.text d.

Let traced_state (st : loop_state) : Prop :=
  Forall traced (curr_docs st)
  /\ (forall sec, current_section st = Some sec ->
        exists line, In line all_lines /\ Outline.heading_number line = Some sec)
  /\ (forall t, section_title st = Some t ->
        exists line, In line all_lines
          /\ Spec.accepted_title bold_candidates line = Some t).

Lemma or_empty_cases (title : option string) :
  or_empty title = "" \/ title = Some (or_empty title).
Proof.
  destruct title as [[|c t]|]; simpl; auto.
Qed.

Lemma flush_section_traced docs sec body title :
  Forall traced docs ->
  (forall n, sec = Some n ->
     exists line, In line all_lines /\ Outline.heading_number line = Some n) ->
  (forall t, title = Some t ->
     exists line, In line all_lines
       /\ Spec.accepted_title bold_candidates line = Some t) ->
  Forall traced (flush_section docs sec body source filename title).
Proof.
  intros Hd Hs Ht. unfold flush_section.
  destruct sec as [n|]; [|exact Hd].
  destruct (existsb _ body); [|exact Hd].
  destruct (truthy _); [|exact Hd].
  apply Forall_app. split; [exact Hd|].
  constructor; [|constructor].
  unfold traced. simpl. split; [apply Hs; reflexivity|]. split.
  - destruct (or_empty_cases title) as [E|E]; [left; exact E|].
    right. apply Ht, E.
  - apply doc_text_stripped.
Qed.

Lemma line_step_traced st line :
  In line all_lines -> traced_state st ->
  traced_state (line_step bold_candidates source filename st line).
Proof.
  intros Hin (Hd & Hs & Ht).
  destruct (Re.section_pattern (strip line)) as [[sec rest0]|] eqn:E.
  - rewrite (line_step_heading _ _ _ st line sec rest0 E). cbv zeta.
    assert (Hnum : exists l, In l all_lines /\ Outline.heading_number l = Some sec).
    { exists line. split; [exact Hin|]. unfold Outline.heading_number.
      rewrite E. reflexivity. }
    pose proof (flush_section_traced (curr_docs st) (current_section st)
                  (current_text_lines st) (section_title st) Hd Hs Ht) as Hf.
    destruct (bool_decide (strip line ∈ bold_candidates)
              && looks_like_title (strip rest0)) eqn:Eb.
    + repeat split; simpl; [exact Hf | intros ? [= <-]; exact Hnum |].
      intros t [= <-]. exists line. split; [exact Hin|].
      unfold Spec.accepted_title. rewrite E, Eb. reflexivity.
    + repeat split; simpl; [exact Hf | intros ? [= <-]; exact Hnum | exact Ht].
  - unfold line_step. rewrite strip_rstrip, E.
    destruct (negb (truthy (strip line))), (current_section st) eqn:Es;
      repeat split; simpl; auto; intros ? Hx; apply Hs; congruence.
Qed.

Lemma fold_line_step_traced lines : forall st,
  Forall (fun l => In l all_lines) lines -> traced_state st ->
  traced_state (fold_left (line_step bold_candidates source filename) lines st).
Proof.
  induction lines as [|line rest IH]; intros st Hin Hst; simpl; [exact Hst|].
  inversion Hin; subst. apply IH; [assumption|].
  apply line_step_traced; assumption.
Qed.

Lemma scan_lines_traced docs :
  Forall traced docs ->
  Forall traced
    (scan_lines bold_candidates source filename (file_start docs) all_lines).
Proof.
  intros Hd. unfold scan_lines.
  destruct (fold_line_step_traced all_lines (file_start docs)) as (H1 & H2 & H3).
  - apply Forall_forall. intros l Hl. apply list_elem_of_In, Hl.
  - repeat split; simpl; [exact Hd | discriminate | discriminate].
  - apply flush_section_traced; assumption.
Qed.

End Provenance.

(** ** The documents already held play no part *)

Section Prepend.

Variable bold_candidates : gset string.
Variable source filename : string.

Lemma flush_section_prepend pre docs sec body title :
  flush_section (pre ++ docs) sec body source filename title
  = pre ++ flush_section docs sec body source filename title.
Proof.
  unfold flush_section. destruct sec; [|reflexivity].
  destruct (existsb _ body); [|reflexivity].
  destruct (truthy _); [|reflexivity].
  rewrite app_assoc. reflexivity.
Qed.

Lemma line_step_prepend pre st line :
  line_step bold_candidates source filename (Outline.prepend pre st) line
  = Outline.prepend pre (line_step bold_candidates source filename st line).
Proof.
  unfold line_step, Outline.prepend. cbn [curr_docs current_section section_title
    current_text_lines].
  destruct (negb (truthy (strip (rstrip line)))).
  - destruct (current_section st) eqn:Es; cbn; rewrite ?Es; reflexivity.
  - destruct (Re.section_pattern (strip (rstrip line))) as [[sec rest0]|].
    + rewrite flush_section_prepend.
      destruct (bool_decide _ && looks_like_title (strip rest0)); reflexivity.
    + destruct (current_section st) eqn:Es; cbn; rewrite ?Es; reflexivity.
Qed.

Lemma fold_line_step_prepend pre lines : forall st,
  fold_left (line_step bold_candidates source filename) lines (Outline.prepend pre st)
  = Outline.prepend pre (fold_left (line_step bold_candidates source filename) lines st).
Proof.
  induction lines as [|line rest IH]; intros st; simpl; [reflexivity|].
  rewrite line_step_prepend. apply IH.
Qed.

Lemma scan_lines_prepend pre lines :
  scan_lines bold_candidates source filename (file_start pre) lines
  = pre ++ scan_lines bold_candidates source filename (file_start []) lines.
Proof.
  unfold scan_lines.
  assert (E : file_start pre = Outline.prepend pre (file_start []))
    by (unfold Outline.prepend, file_start; simpl; rewrite app_nil_r; reflexivity).
  rewrite E, fold_line_step_prepend.
  cbn [Outline.prepend curr_docs current_section section_title current_text_lines].
  apply flush_section_prepend.
Qed.

End Prepend.

Lemma split_sections_prepend pre filename lines bold :
  split_sections pre filename lines bold
  = docs ← split_sections [] filename lines bold; Ok (pre ++ docs).
Proof.
  unfold split_sections.
  destruct (source_label lines filename) as [src|e]; [|reflexivity].
  cbn. rewrite scan_lines_prepend. reflexivity.
Qed.

Lemma file_documents_prepend pre pdf :
  file_documents pre pdf = docs ← file_documents [] pdf; Ok (pre ++ docs).
Proof. unfold file_documents. apply split_sections_prepend. Qed.

Lemma documents_from_prepend pdfs : forall pre,
  documents_from pre pdfs = docs ← documents_from [] pdfs; Ok (pre ++ docs).
Proof.
  induction pdfs as [|pdf rest IH]; intros pre; simpl.
  - rewrite app_nil_r. reflexivity.
  - rewrite (file_documents_prepend pre pdf).
    destruct (file_documents [] pdf) as [d1|e]; [|reflexivity].
    cbn. rewrite (IH (pre ++ d1)), (IH d1).
    destruct (documents_from [] rest) as [d2|e]; [|reflexivity].
    cbn. rewrite app_assoc. reflexivity.
Qed.

(** X1.  The files are processed one after the other and share nothing but
    the list they append to: the documents of a list of files are the
    documents of its first files followed by those of the others, and a
    failure in either part is a failure of the whole. *)
Theorem create_documents_app (pdfs1 pdfs2 : list Pdf) :
  create_documents (pdfs1 ++ pdfs2)
  = docs1 ← create_documents pdfs1;
    docs2 ← create_documents pdfs2;
    Ok (docs1 ++ docs2).
Proof.
  unfold create_documents.
  assert (H : forall pre,
    documents_from pre (pdfs1 ++ pdfs2)
    = docs1 ← documents_from pre pdfs1; documents_from docs1 pdfs2).
  { induction pdfs1 as [|pdf rest IH]; intros pre; simpl; [reflexivity|].
    destruct (file_documents pre pdf) as [d|e]; [|reflexivity]. cbn. apply IH. }
  rewrite H. destruct (documents_from [] pdfs1) as [d1|e]; [|reflexivity].
  cbn. apply documents_from_prepend.
Qed.

(** ** File by file *)

Lemma file_documents_scan (pdf : Pdf) (docs : list Doc.t) :
  file_documents [] pdf = Ok docs ->
  exists src,
    source_label (Outline.lines_of pdf) (basename pdf) = Ok src
    /\ docs = scan_lines (collect_bold (pages pdf)) src (basename pdf)
                (file_start []) (Outline.lines_of pdf).
Proof.
  unfold file_documents, split_sections. fold (Outline.lines_of pdf).
  destruct (source_label (Outline.lines_of pdf) (basename pdf)) as [src|e];
    [|discriminate].
  cbn. intros [= <-]. exists src. auto.
Qed.

(** The output is the concatenation of what each file gives alone. *)
Lemma create_documents_per_file (pdfs : list Pdf) : forall docs,
  create_documents pdfs = Ok docs ->
  exists dss,
    Forall2 (fun pdf ds => file_documents [] pdf = Ok ds) pdfs dss
    /\ docs = concat dss.
Proof.
  unfold create_documents.
  induction pdfs as [|pdf rest IH]; intros docs; simpl.
  - intros [= <-]. exists []. split; [constructor | reflexivity].
  - destruct (file_documents [] pdf) as [d1|e] eqn:E1; [|discriminate].
    cbn. rewrite documents_from_prepend.
    destruct (documents_from [] rest) as [d2|e] eqn:E2; [|discriminate].
    cbn. intros [= <-].
    destruct (IH d2 eq_refl) as (dss & F & ->).
    exists (d1 :: dss). split; [constructor; assumption | reflexivity].
Qed.

Lemma create_documents_each (P : Pdf -> Doc.t -> Prop) (pdfs : list Pdf) docs :
  (forall pdf ds, In pdf pdfs -> file_documents [] pdf = Ok ds -> Forall (P pdf) ds) ->
  create_documents pdfs = Ok docs ->
  Forall (fun d => exists pdf, In pdf pdfs /\ P pdf d) docs.
Proof.
  intros HP H. apply create_documents_per_file in H as (dss & F & ->).
  induction F as [|pdf ds pdfs' dss' Hpdf F IH]; [constructor|].
  simpl. apply Forall_app. split.
  - eapply Forall_impl; [apply (HP pdf ds); [left; reflexivity | exact Hpdf]|].
    intros d Hd. exists pdf. split; [left; reflexivity | exact Hd].
  - eapply Forall_impl; [apply IH; intros; eapply HP; eauto; right; assumption|].
    intros d (pdf' & Hin & Hd). exists pdf'. split; [right; exact Hin | exact Hd].
Qed.

(** ** The shape of section numbers *)

Lemma isdecimal_not_dot (c : ascii) : isdecimal c = true -> Ascii.eqb c "." = false.
Proof.
  intros H. destruct (Ascii.eqb_spec c ".") as [->|]; [|reflexivity].
  vm_compute in H. discriminate.
Qed.

Lemma section_span_dotted (s : string) :
  (forall c, isdecimal c = true ->
     Outline.dotted (String c (fst (Re.section_span s))) = true)
  /\ (forall d r, s = String d r -> isdecimal d = true ->
        Outline.dotted (fst (Re.section_span s)) = true).
Proof.
  induction s as [|d r [IH1 IH2]].
  - split; [|discriminate]. intros c Hc. simpl. rewrite Hc. reflexivity.
  - assert (Hd : isdecimal d = true ->
              Outline.dotted (fst (Re.section_span (String d r))) = true).
    { intros Hd. cbn [Re.section_span]. rewrite Hd.
      specialize (IH1 d Hd). destruct (Re.section_span r) as [a b]. exact IH1. }
    split; [|intros ? ? [= <- <-]; exact Hd].
    intros c Hc. destruct (isdecimal d) eqn:Ed.
    + specialize (Hd eq_refl). cbn [Re.section_span] in *. rewrite Ed in *.
      destruct (Re.section_span r) as [a b]. cbn [fst] in *.
      cbn [Outline.dotted]. rewrite Hc, (isdecimal_not_dot d Ed). exact Hd.
    + cbn [Re.section_span]. rewrite Ed.
      destruct (Ascii.eqb_spec d ".") as [->|];
        [|simpl; rewrite Hc; reflexivity].
      destruct r as [|e r']; [simpl; rewrite Hc; reflexivity|].
      destruct (isdecimal e) eqn:Ee; [|simpl; rewrite Hc; reflexivity].
      specialize (IH2 e r' eq_refl Ee).
      destruct (Re.section_span (String e r')) as [a b]. cbn [fst] in *.
      cbn [Outline.dotted]. rewrite Hc. simpl. exact IH2.
Qed.

Lemma section_pattern_dotted (s sec rest : string) :
  Re.section_pattern s = Some (sec, rest) -> Outline.dotted sec = true.
Proof.
  unfold Re.section_pattern. destruct s as [|c r]; [discriminate|].
  destruct (isdecimal c) eqn:Ec; [|discriminate].
  pose proof (proj2 (section_span_dotted (String c r)) c r eq_refl Ec) as H.
  destruct (Re.section_span (String c r)) as [a b].
  destruct (Re.dot_star_end _); [|discriminate].
  intros [= <- _]. exact H.
Qed.

Example statute_documents :
  create_documents [Sample.statute_pdf] = Ok Sample.statute_docs.
Proof. vm_compute. reflexivity. Qed.

(** ** What every returned document carries *)

Lemma file_documents_traced (pdf : Pdf) (ds : list Doc.t) :
  file_documents [] pdf = Ok ds ->
  exists src,
    source_label (Outline.lines_of pdf) (basename pdf) = Ok src
    /\ Forall (Spec.emitted_ok src (basename pdf)) ds
    /\ Forall (fun d =>
         (exists line, In line (Outline.lines_of pdf)
            /\ Outline.heading_number line = Some (Doc.section d))
         /\ (Doc.section_title d = ""
             \/ exists line, In line (Outline.lines_of pdf)
                  /\ Spec.accepted_title (collect_bold (pages pdf)) line
                     = Some (Doc.section_title d))
         /\ strip (Doc.text d) = Doc.text d) ds.
Proof.
  intros H. apply file_documents_scan in H as (src & Hsrc & ->).
  exists src. split; [exact Hsrc|]. split.
  - destruct (scan_lines_emits (collect_bold (pages pdf)) src (basename pdf)
                (file_start []) (Outline.lines_of pdf)) as (new & -> & F).
    exact F.
  - apply scan_lines_traced. constructor.
Qed.

(** X2.  Every returned document names one of the files processed, has the
    source label of that file, and is numbered by a heading line of that
    file. *)
Theorem documents_belong_to_files (pdfs : list Pdf) (docs : list Doc.t) :
  create_documents pdfs = Ok docs ->
  Forall (fun d => exists pdf,
            In pdf pdfs
            /\ Doc.file_name d = basename pdf
            /\ source_label (Outline.lines_of pdf) (basename pdf) = Ok (Doc.source d)
            /\ exists line, In line (Outline.lines_of pdf)
                 /\ Outline.heading_number line = Some (Doc.section d)) docs.
Proof.
  apply (create_documents_each
           (fun pdf d =>
              Doc.file_name d = basename pdf
              /\ source_label (Outline.lines_of pdf) (basename pdf) = Ok (Doc.source d)
              /\ exists line, In line (Outline.lines_of pdf)
                   /\ Outline.heading_number line = Some (Doc.section d))).
  intros pdf ds _ H.
  apply file_documents_traced in H as (src & Hsrc & Fe & Ft).
  apply Forall_forall. intros d Hd.
  rewrite Forall_forall in Fe, Ft.
  destruct (Fe d Hd) as (E1 & E2 & _). destruct (Ft d Hd) as (Hn & _).
  rewrite E1. auto.
Qed.

Lemma documents_belong_to_files_witness :
  create_documents [Sample.statute_pdf] = Ok Sample.statute_docs
  /\ Forall (fun d => exists pdf,
            In pdf [Sample.statute_pdf]
            /\ Doc.file_name d = basename pdf
            /\ source_label (Outline.lines_of pdf) (basename pdf) = Ok (Doc.source d)
            /\ exists line, In line (Outline.lines_of pdf)
                 /\ Outline.heading_number line = Some (Doc.section d))
       Sample.statute_docs.
Proof.
  assert (H : create_documents [Sample.statute_pdf] = Ok Sample.statute_docs)
    by (vm_compute; reflexivity).
  split; [exact H|].
  exact (documents_belong_to_files [Sample.statute_pdf] Sample.statute_docs H).
Defined.

(** X3.  The section number of every returned document is a dotted number:
    it starts with a digit, holds digits and dots only, and each of its
    dots is followed by a digit. *)
Theorem section_numbers_are_dotted (pdfs : list Pdf) (docs : list Doc.t) :
  create_documents pdfs = Ok docs ->
  Forall (fun d => Outline.dotted (Doc.section d) = true) docs.
Proof.
  intros H.
  pose proof (create_documents_each
                (fun _ d => Outline.dotted (Doc.section d) = true) pdfs docs) as L.
  eapply Forall_impl; [apply L; [|exact H]|].
  - intros pdf ds _ Hf.
    apply file_documents_traced in Hf as (src & _ & _ & Ft).
    eapply Forall_impl; [exact Ft|].
    intros d ((line & _ & Hn) & _).
    unfold Outline.heading_number in Hn.
    destruct (Re.section_pattern (strip line)) as [[sec rest]|] eqn:E; [|discriminate].
    injection Hn as <-. apply (section_pattern_dotted _ _ _ E).
  - intros d (_ & _ & Hd). exact Hd.
Qed.

Lemma section_numbers_are_dotted_witness :
  create_documents [Sample.statute_pdf] = Ok Sample.statute_docs
  /\ Forall (fun d => Outline.dotted (Doc.section d) = true) Sample.statute_docs.
Proof.
  assert (H : create_documents [Sample.statute_pdf] = Ok Sample.statute_docs)
    by (vm_compute; reflexivity).
  split; [exact H|].
  exact (section_numbers_are_dotted [Sample.statute_pdf] Sample.statute_docs H).
Defined.

(** X4.  A title is never made up: the title of every returned document is
    empty, or it is the trimmed rest of a heading line of the file that the
    document names, whose trimmed text is among the bold lines of that same
    file, and it passes [looks_like_title]. *)
Theorem titles_come_from_bold_headings (pdfs : list Pdf) (docs : list Doc.t) :
  create_documents pdfs = Ok docs ->
  Forall (fun d =>
            exists pdf,
              In pdf pdfs
              /\ Doc.file_name d = basename pdf
              /\ (Doc.section_title d = ""
                  \/ exists line sec rest,
                       In line (Outline.lines_of pdf)
                       /\ Re.section_pattern (strip line) = Some (sec, rest)
                       /\ Doc.section_title d = strip rest
                       /\ strip line ∈ collect_bold (pages pdf)
                       /\ looks_like_title (Doc.section_title d) = true)) docs.
Proof.
  apply (create_documents_each
    (fun pdf d =>
       Doc.file_name d = basename pdf
       /\ (Doc.section_title d = ""
           \/ exists line sec rest,
                In line (Outline.lines_of pdf)
                /\ Re.section_pattern (strip line) = Some (sec, rest)
                /\ Doc.section_title d = strip rest
                /\ strip line ∈ collect_bold (pages pdf)
                /\ looks_like_title (Doc.section_title d) = true))).
  intros pdf ds _ Hf.
  apply file_documents_traced in Hf as (src & _ & Fe & Ft).
  apply Forall_forall. intros d Hd. rewrite Forall_forall in Fe, Ft.
  destruct (Fe d Hd) as (_ & Hname & _).
  destruct (Ft d Hd) as (_ & [Ht|(line & Hin & Ha)] & _);
    (split; [exact Hname|]); [left; exact Ht|].
  right. unfold Spec.accepted_title in Ha.
  destruct (Re.section_pattern (strip line)) as [[sec rest]|] eqn:E; [|discriminate].
  destruct (bool_decide (strip line ∈ collect_bold (pages pdf))
            && looks_like_title (strip rest)) eqn:Eb; [|discriminate].
  injection Ha as Ha. apply andb_true_iff in Eb as [Eb1 Eb2].
  apply bool_decide_eq_true in Eb1.
  exists line, sec, rest. rewrite <- Ha. auto.
Qed.

Lemma titles_come_from_bold_headings_witness :
  create_documents [Sample.statute_pdf] = Ok Sample.statute_docs
  /\ Forall (fun d =>
            exists pdf,
              In pdf [Sample.statute_pdf]
              /\ Doc.file_name d = basename pdf
              /\ (Doc.section_title d = ""
                  \/ exists line sec rest,
                       In line (Outline.lines_of pdf)
                       /\ Re.section_pattern (strip line) = Some (sec, rest)
                       /\ Doc.section_title d = strip rest
                       /\ strip line ∈ collect_bold (pages pdf)
                       /\ looks_like_title (Doc.section_title d) = true))
       Sample.statute_docs.
Proof.
  assert (H : create_documents [Sample.statute_pdf] = Ok Sample.statute_docs)
    by (vm_compute; reflexivity).
  split; [exact H|].
  exact (titles_come_from_bold_headings [Sample.statute_pdf] Sample.statute_docs H).
Defined.

(** X5.  The text of every returned document is trimmed: it neither starts
    nor ends with white space. *)
Theorem texts_are_trimmed (pdfs : list Pdf) (docs : list Doc.t) :
  create_documents pdfs = Ok docs ->
  Forall (fun d => lstrip (Doc.text d) = Doc.text d
                   /\ rstrip (Doc.text d) = Doc.text d) docs.
Proof.
  intros H.
  pose proof (create_documents_each
                (fun _ d => strip (Doc.text d) = Doc.text d) pdfs docs) as L.
  eapply Forall_impl; [apply L; [|exact H]|].
  - intros pdf ds _ Hf.
    apply file_documents_traced in Hf as (src & _ & _ & Ft).
    eapply Forall_impl; [exact Ft|]. intros d (_ & _ & Hd). exact Hd.
  - intros d (_ & _ & Hd). split.
    + rewrite <- Hd. unfold strip. apply lstrip_idem.
    + rewrite <- Hd. apply rstrip_strip.
Qed.

Lemma texts_are_trimmed_witness :
  create_documents [Sample.statute_pdf] = Ok Sample.statute_docs
  /\ Forall (fun d => lstrip (Doc.text d) = Doc.text d
                      /\ rstrip (Doc.text d) = Doc.text d) Sample.statute_docs.
Proof.
  assert (H : create_documents [Sample.statute_pdf] = Ok Sample.statute_docs)
    by (vm_compute; reflexivity).
  split; [exact H|].
  exact (texts_are_trimmed [Sample.statute_pdf] Sample.statute_docs H).
Defined.

(** ** The order of the documents *)

Section Order.

Variable bold_candidates : gset string.
Variable source filename : string.

(** The numbers of the documents held, then that of the open section. *)
Let numbers (st : loop_state) : list string :=
  map Doc.section (curr_docs st) ++ option_list (current_section st).

Lemma flush_section_numbers docs sec body title :
  exists new,
    flush_section docs sec body source filename title = docs ++ new
    /\ map Doc.section new `sublist_of` option_list sec.
Proof.
  assert (Hnone : exists new, docs = docs ++ new
                    /\ map Doc.section new `sublist_of` option_list sec).
  { exists []. rewrite app_nil_r. split; [reflexivity | apply sublist_nil_l]. }
  unfold flush_section. destruct sec as [n|]; [|exact Hnone].
  destruct (existsb _ body); [|exact Hnone].
  destruct (truthy _); [|exact Hnone].
  eexists [_]. split; reflexivity.
Qed.

Lemma line_step_numbers st line hs :
  numbers st `sublist_of` hs ->
  numbers (line_step bold_candidates source filename st line)
    `sublist_of` hs ++ option_list (Outline.heading_number line).
Proof.
  unfold numbers, Outline.heading_number. intros H.
  destruct (Re.section_pattern (strip line)) as [[sec rest0]|] eqn:E.
  - rewrite (line_step_heading _ _ _ st line sec rest0 E). cbv zeta.
    destruct (flush_section_numbers (curr_docs st) (current_section st)
                (current_text_lines st) (section_title st)) as (new & -> & Hn).
    assert (Hall : map Doc.section (curr_docs st ++ new) `sublist_of` hs).
    { rewrite map_app. etransitivity; [|exact H].
      apply sublist_app; [reflexivity | exact Hn]. }
    destruct (bool_decide _ && looks_like_title (strip rest0)); simpl;
      apply sublist_app; auto.
  - simpl. rewrite app_nil_r.
    destruct (current_section st) as [sec|] eqn:Es.
    + destruct (line_step_body bold_candidates source filename st line sec Es E)
        as (E1 & E2 & _).
      cbv zeta in E1, E2. rewrite E1, E2. exact H.
    + rewrite (line_step_outside bold_candidates source filename st line Es E).
      rewrite Es. exact H.
Qed.

Lemma fold_line_step_numbers lines : forall st hs,
  numbers st `sublist_of` hs ->
  numbers (fold_left (line_step bold_candidates source filename) lines st)
    `sublist_of` hs ++ Outline.heading_numbers lines.
Proof.
  induction lines as [|line rest IH]; intros st hs H; simpl.
  - rewrite app_nil_r. exact H.
  - apply (line_step_numbers st line) in H. apply IH in H.
    rewrite <- app_assoc in H.
    unfold Outline.heading_numbers. simpl.
    destruct (Outline.heading_number line); exact H.
Qed.

Lemma scan_lines_numbers lines :
  map Doc.section (scan_lines bold_candidates source filename (file_start []) lines)
    `sublist_of` Outline.heading_numbers lines.
Proof.
  unfold scan_lines.
  pose proof (fold_line_step_numbers lines (file_start []) []) as H.
  simpl in H. specialize (H (sublist_nil)).
  set (st := fold_left _ lines (file_start [])) in *.
  destruct (flush_section_numbers (curr_docs st) (current_section st)
              (current_text_lines st) (section_title st)) as (new & -> & Hn).
  rewrite map_app. etransitivity; [|exact H].
  apply sublist_app; [reflexivity | exact Hn].
Qed.

End Order.

(** X6.  The documents come out in the order of the headings: their section
    numbers, read in order, are picked from the section numbers of the
    heading lines of the files read in order, each heading giving one
    document at most; so there are no more documents than heading lines. *)
Theorem documents_follow_headings (pdfs : list Pdf) (docs : list Doc.t) :
  create_documents pdfs = Ok docs ->
  map Doc.section docs
    `sublist_of` concat (map (fun pdf => Outline.heading_numbers (Outline.lines_of pdf)) pdfs)
  /\ length docs
     <= length (concat (map (fun pdf => Outline.heading_numbers (Outline.lines_of pdf)) pdfs)).
Proof.
  intros H.
  assert (S : map Doc.section docs `sublist_of`
              concat (map (fun pdf => Outline.heading_numbers (Outline.lines_of pdf)) pdfs)).
  { apply create_documents_per_file in H as (dss & F & ->).
    induction F as [|pdf ds pdfs' dss' Hpdf F IH]; [constructor|].
    simpl. rewrite map_app. apply sublist_app; [|exact IH].
    apply file_documents_scan in Hpdf as (src & _ & ->).
    apply scan_lines_numbers. }
  split; [exact S|].
  apply sublist_length in S. rewrite length_map in S. exact S.
Qed.

Lemma documents_follow_headings_witness :
  create_documents [Sample.statute_pdf] = Ok Sample.statute_docs
  /\ map Doc.section Sample.statute_docs
       `sublist_of` concat (map (fun pdf => Outline.heading_numbers (Outline.lines_of pdf))
                              [Sample.statute_pdf])
  /\ length Sample.statute_docs
     <= length (concat (map (fun pdf => Outline.heading_numbers (Outline.lines_of pdf))
                          [Sample.statute_pdf])).
Proof.
  assert (H : create_documents [Sample.statute_pdf] = Ok Sample.statute_docs)
    by (vm_compute; reflexivity).
  split; [exact H|].
  exact (documents_follow_headings [Sample.statute_pdf] Sample.statute_docs H).
Defined.

(** ** Files without text *)

Lemma segments_first (c : ascii) (r : string) :
  exists seg segs,
    segments false (String c r) = seg :: segs /\ (segs <> [] \/ seg <> "").
Proof.
  assert (Hne : forall b s, segments b s <> []).
  { intros b s. revert b. induction s as [|a s IH]; intros b; simpl; [discriminate|].
    destruct (b && is_code 10 a); [apply IH|].
    destruct (islinebreak a); [discriminate|].
    destruct (segments false s); discriminate. }
  simpl. destruct (islinebreak c).
  - eexists _, _. split; [reflexivity|]. left. apply Hne.
  - destruct (segments false r) as [|seg segs].
    + eexists _, _. split; [reflexivity|]. right. discriminate.
    + eexists _, _. split; [reflexivity|]. right. discriminate.
Qed.

(** Only the empty text has no line. *)
Lemma splitlines_nil (s : string) : splitlines s = [] <-> s = "".
Proof.
  split; [|intros ->; reflexivity].
  destruct s as [|c r]; [reflexivity|]. intros H. exfalso.
  destruct (segments_first c r) as (seg & segs & E & Hor).
  unfold splitlines in H. rewrite E in H.
  destruct segs as [|seg2 segs'].
  - destruct Hor as [Hor|Hor]; [congruence|].
    simpl in H. destruct seg; [congruence | discriminate].
  - destruct (last (seg :: seg2 :: segs')) as [[|]|]; simpl in H; discriminate.
Qed.

Lemma textless_full_text (pdf : Pdf) :
  Outline.textless pdf = true
  <-> join (String LF "")
        (map (fun p => default "" (extract_text p)) (pages pdf)) = "".
Proof.
  unfold Outline.textless. destruct (pages pdf) as [|p [|q ps]]; simpl.
  - tauto.
  - rewrite negb_true_iff. apply truthy_false.
  - split; [discriminate|]. intros H.
    destruct (default "" (extract_text p)); discriminate.
Qed.

Lemma file_documents_textless (docs : list Doc.t) (pdf : Pdf) :
  if Outline.textless pdf
  then file_documents docs pdf = Raise IndexError
  else exists ds, file_documents docs pdf = Ok ds.
Proof.
  pose proof (textless_full_text pdf) as Ht.
  unfold file_documents, split_sections.
  set (full := join _ _) in *.
  pose proof (splitlines_nil full) as Hs.
  destruct (Outline.textless pdf).
  - replace (splitlines full) with (@nil string) by (symmetry; tauto). reflexivity.
  - destruct (splitlines full) as [|l0 ls].
    + exfalso. assert (false = true) by tauto. discriminate.
    + rewrite source_label_first. cbn. eauto.
Qed.

(** X7.  Given the files as they were read: when one of them has no text
    at all (no page, or a single page whose text is missing or empty),
    [create_documents] raises [IndexError], wherever that file stands in
    the list; none of the documents built from the other files is
    returned. *)
Theorem textless_file_raises (pdfs : list Pdf) :
  existsb Outline.textless pdfs = true ->
  create_documents pdfs = Raise IndexError.
Proof.
  unfold create_documents. generalize (@nil Doc.t) as docs.
  induction pdfs as [|pdf rest IH]; intros docs; simpl; [discriminate|].
  pose proof (file_documents_textless docs pdf) as H.
  destruct (Outline.textless pdf); simpl.
  - intros _. rewrite H. reflexivity.
  - intros Hrest. destruct H as (ds & ->). cbn. apply IH, Hrest.
Qed.

Lemma textless_file_raises_witness :
  existsb Outline.textless [Sample.statute_pdf; Scenario.scan_pdf] = true
  /\ create_documents [Sample.statute_pdf; Scenario.scan_pdf] = Raise IndexError.
Proof.
  assert (H : existsb Outline.textless [Sample.statute_pdf; Scenario.scan_pdf] = true)
    by reflexivity.
  split; [exact H|].
  exact (textless_file_raises [Sample.statute_pdf; Scenario.scan_pdf] H).
Defined.

(** ** White space at the end of lines *)

Lemma line_step_rstrip bold src filename st line :
  line_step bold src filename st (rstrip line) = line_step bold src filename st line.
Proof. unfold line_step. rewrite rstrip_idem. reflexivity. Qed.

(** X8.  White space at the end of the lines of a file plays no part:
    removing it from every line changes neither the documents nor the
    failure. *)
Theorem trailing_space_is_ignored
    (docs : list Doc.t) (filename : string) (lines : list string)
    (bold : gset string) :
  split_sections docs filename (map rstrip lines) bold
  = split_sections docs filename lines bold.
Proof.
  unfold split_sections.
  assert (Hsrc : source_label (map rstrip lines) filename = source_label lines filename).
  { destruct lines as [|l0 ls]; [reflexivity|]. simpl. rewrite strip_rstrip. reflexivity. }
  rewrite Hsrc. destruct (source_label lines filename) as [src|e]; [|reflexivity].
  cbn. f_equal. unfold scan_lines.
  assert (Hfold : forall st,
    fold_left (line_step bold src filename) (map rstrip lines) st
    = fold_left (line_step bold src filename) lines st).
  { clear. induction lines as [|l ls IH]; intros st; simpl; [reflexivity|].
    rewrite line_step_rstrip. apply IH. }
  rewrite Hfold. reflexivity.
Qed.

(** ** Paragraph breaks *)

(** X9.  In the body handed to the paragraph loop, empty-string markers at
    the start or at the end change nothing, and two markers in a row count
    as one. *)
Theorem doc_text_markers (before after : list string) :
  doc_text ("" :: after) = doc_text after
  /\ doc_text (before ++ [""]) = doc_text before
  /\ doc_text (before ++ "" :: "" :: after) = doc_text (before ++ "" :: after).
Proof.
  unfold doc_text. split; [reflexivity | split].
  - rewrite fold_left_app. cbn [fold_left].
    destruct (fold_left paragraph_step before ([], [])) as [ps buf].
    destruct buf as [|b buf']; reflexivity.
  - rewrite !fold_left_app. cbn [fold_left].
    destruct (fold_left paragraph_step before ([], [])) as [ps buf].
    destruct buf as [|b buf']; reflexivity.
Qed.

(** ** Headings written in the usual way *)

Lemma section_span_stop (tail : string) :
  Outline.ends_number tail = true -> Re.section_span tail = ("", tail).
Proof.
  destruct tail as [|c r]; [reflexivity|]. simpl.
  intros H. apply andb_true_iff in H as [Hc Hd].
  apply negb_true_iff in Hc. rewrite Hc.
  destruct (Ascii.eqb c "."); [|reflexivity].
  destruct r as [|d r']; [reflexivity|].
  simpl in Hd. apply negb_true_iff in Hd. rewrite Hd. reflexivity.
Qed.

Lemma section_span_number (tail : string) (Htail : Outline.ends_number tail = true)
  (n : string) :
  (Outline.dotted n = true -> Re.section_span (n +:+ tail) = (n, tail))
  /\ (forall r, n = String "." r -> Outline.dotted r = true ->
        Re.section_span (n +:+ tail) = (n, tail)).
Proof.
  induction n as [|c r [IH1 IH2]].
  - split; [discriminate|]. intros r H. discriminate.
  - split.
    + cbn [Outline.dotted]. intros H. apply andb_true_iff in H as [Hc Hr].
      change (String c r +:+ tail) with (String c (r +:+ tail)).
      cbn [Re.section_span]. rewrite Hc.
      assert (E : Re.section_span (r +:+ tail) = (r, tail)).
      { destruct r as [|d r'].
        - apply section_span_stop, Htail.
        - destruct (Ascii.eqb_spec d ".") as [->|].
          + apply (IH2 r' eq_refl Hr).
          + apply IH1, Hr. }
      rewrite E. reflexivity.
    + intros r0 [= -> ->] Hr.
      change (String "." r0 +:+ tail) with (String "." (r0 +:+ tail)).
      destruct r0 as [|e r']; [discriminate|].
      pose proof Hr as Hr'. cbn [Outline.dotted] in Hr'.
      apply andb_true_iff in Hr' as [He _].
      change (String e r' +:+ tail) with (String e (r' +:+ tail)).
      cbn [Re.section_span].
      replace (isdecimal ".") with false by reflexivity.
      rewrite Ascii.eqb_refl, He.
      change (String e (r' +:+ tail)) with (String e r' +:+ tail).
      pose proof (IH1 Hr) as E.
      change (String e r' +:+ tail) with (String e (r' +:+ tail)) in E |- *.
      cbn [Re.section_span] in E. rewrite He in E.
      destruct (Re.section_span (r' +:+ tail)) as [a b].
      injection E as -> ->. reflexivity.
Qed.



(** ** The bold lines of a file *)

Lemma collect_bold_lines (lines : list string) : forall (acc : gset string) x,
  x ∈ fold_left
        (fun acc bl => let bls := strip bl in
                       if truthy bls then acc ∪ {[ bls ]} else acc)
        lines acc
  <-> x ∈ acc \/ (x <> "" /\ exists bl, In bl lines /\ strip bl = x).
Proof.
  induction lines as [|bl rest IH]; intros acc x; simpl.
  - split; [auto|]. intros [H|(_ & bl & [] & _)]. exact H.
  - rewrite IH. destruct (truthy (strip bl)) eqn:E.
    + rewrite elem_of_union, elem_of_singleton. split.
      * intros [[H| ->]|(Hx & b & Hb & Hs)]; [auto | | right; eauto].
        right. split; [apply truthy_true, E | eauto].
      * intros [H|(Hx & b & [<-|Hb] & Hs)]; [auto | auto | right; eauto].
    + apply truthy_false in E. split.
      * intros [H|(Hx & b & Hb & Hs)]; [auto | right; eauto].
      * intros [H|(Hx & b & [<-|Hb] & Hs)]; [auto | congruence | right; eauto].
Qed.

(** X11.  The bold line set of a file holds exactly the non-empty trimmed
    lines of the bold text of its pages. *)
Theorem collect_bold_spec (ps : list Page) (x : string) :
  x ∈ collect_bold ps
  <-> x <> ""
      /\ exists p bl,
           In p ps
           /\ In bl (splitlines (default "" (bold_extract_text p)))
           /\ strip bl = x.
Proof.
  unfold collect_bold.
  assert (H : forall (acc : gset string),
    x ∈ fold_left
          (fun acc p =>
             fold_left
               (fun acc bl => let bls := strip bl in
                              if truthy bls then acc ∪ {[ bls ]} else acc)
               (splitlines (default "" (bold_extract_text p))) acc)
          ps acc
    <-> x ∈ acc
        \/ (x <> ""
            /\ exists p bl,
                 In p ps
                 /\ In bl (splitlines (default "" (bold_extract_text p)))
                 /\ strip bl = x)).
  { induction ps as [|p rest IH]; intros acc; simpl.
    - split; [auto|]. intros [H|(_ & p & bl & [] & _)]. exact H.
    - rewrite IH, collect_bold_lines. split.
      + intros [[H|(Hx & bl & Hb & Hs)]|(Hx & q & bl & Hq & Hb & Hs)];
          [auto | right | right]; (split; [exact Hx|]); eauto 6.
      + intros [H|(Hx & q & bl & [<-|Hq] & Hb & Hs)]; [auto | left | right].
        * right. eauto.
        * split; [exact Hx|]. eauto. }
  rewrite H. split; [|auto]. intros [Hin|Hr]; [|exact Hr].
  exfalso. revert Hin. apply not_elem_of_empty.
Qed.

(** ** The title heuristic *)

(** X12.  White space around a candidate title does not change the verdict
    of [looks_like_title]. *)
Theorem looks_like_title_strip (s : string) :
  looks_like_title (strip s) = looks_like_title s.
Proof.
  destruct (strip s) as [|c r] eqn:E.
  - unfold looks_like_title at 2. rewrite E.
    destruct (negb (truthy s)); reflexivity.
  - rewrite <- E. unfold looks_like_title. rewrite strip_idem.
    rewrite E at 1. cbn [truthy negb].
    destruct s as [|a s']; [discriminate E | reflexivity].
Qed.

(** ** The pattern of source labels *)

Section SourceRegex.

Import QdrantService.

Lemma endswith_refl (s : string) : endswith s s = true.
Proof. destruct s; simpl; rewrite ?Ascii.eqb_refl, ?String.eqb_refl; reflexivity. Qed.

Lemma endswith_cons (c : ascii) (s x : string) :
  endswith s x = true -> endswith (String c s) x = true.
Proof. intros H. cbn [endswith]. rewrite H. apply orb_true_r. Qed.

Lemma endswith_trans (s m x : string) :
  endswith s m = true -> endswith m x = true -> endswith s x = true.
Proof.
  induction s as [|c r IH]; cbn [endswith]; intros H1 H2.
  - rewrite orb_false_r in H1. apply String.eqb_eq in H1. subst m. exact H2.
  - apply orb_true_iff in H1 as [H1|H1].
    + apply String.eqb_eq in H1. subst m. exact H2.
    + rewrite (IH H1 H2). apply orb_true_r.
Qed.

Lemma endswith_lstrip (s : string) : endswith s (lstrip s) = true.
Proof.
  induction s as [|c r IH]; [reflexivity|]. simpl lstrip.
  destruct (isspace c); [apply endswith_cons, IH | apply endswith_refl].
Qed.

Lemma endswith_literal (lit : string) : forall s r,
  literal_nocase lit s = Some r -> endswith s r = true.
Proof.
  induction lit as [|a lit IH]; intros s r; simpl.
  - intros [= ->]. apply endswith_refl.
  - destruct s as [|c s']; [discriminate|].
    destruct (Ascii.eqb _ _); [|discriminate].
    intros H. apply endswith_cons, (IH _ _ H).
Qed.

Lemma span_digits_spec (s : string) :
  all_chars isdecimal (fst (span_digits s)) = true
  /\ endswith s (snd (span_digits s)) = true.
Proof.
  induction s as [|c r [IH1 IH2]]; [split; reflexivity|].
  cbn [span_digits]. destruct (isdecimal c) eqn:E.
  - destruct (span_digits r) as [ds tail]. simpl in *. rewrite E, IH1, IH2.
    split; [reflexivity | apply orb_true_r].
  - split; [reflexivity | apply endswith_refl].
Qed.

(** What [dot_star_end] accepts: a text without line feed, followed by
    nothing or by one line feed. *)
Lemma dot_star_end_spec (s t : string) :
  Re.dot_star_end s = Some t ->
  nolf t = true /\ (s = t \/ s = t +:+ String LF "").
Proof.
  revert t. induction s as [|c r IH]; intros t; simpl.
  - intros [= <-]. auto.
  - destruct (Ascii.eqb_spec c LF) as [->|Hne].
    + destruct r; simpl; [|discriminate]. intros [= <-]. auto.
    + destruct (Re.dot_star_end r) as [t'|]; [|discriminate].
      simpl. intros [= <-]. destruct (IH t' eq_refl) as (Hn & Hs).
      split.
      * simpl. rewrite Hn. destruct (Ascii.eqb_spec c LF); [contradiction | reflexivity].
      * destruct Hs as [->| ->]; [left | right]; reflexivity.
Qed.

Lemma endswith_app (a b : string) : endswith (a +:+ b) b = true.
Proof.
  induction a as [|c a IH]; [apply endswith_refl|].
  change (String c a +:+ b) with (String c (a +:+ b)). apply endswith_cons, IH.
Qed.

Lemma space_then_text_spec (s t : string) :
  space_then_text s = Some t ->
  t <> "" /\ nolf t = true
  /\ (endswith s t = true \/ endswith s (t +:+ String LF "") = true).
Proof.
  assert (Hdot : forall s t, dot_plus_end s = Some t ->
            t <> "" /\ nolf t = true
            /\ (endswith s t = true \/ endswith s (t +:+ String LF "") = true)).
  { clear. intros s t. unfold dot_plus_end.
    destruct (Re.dot_star_end s) as [[|c r]|] eqn:E; try discriminate.
    intros [= <-]. apply dot_star_end_spec in E as (Hn & [->| ->]).
    - repeat split; [discriminate | exact Hn | left; apply endswith_refl].
    - repeat split; [discriminate | exact Hn | right; apply endswith_refl]. }
  revert t. induction s as [|c r IH]; intros t; [discriminate|].
  cbn [space_then_text]. destruct (isspace c); [|apply Hdot].
  destruct (space_then_text r) as [t'|]; [|apply Hdot].
  intros [= <-]. destruct (IH t' eq_refl) as (H1 & H2 & H3).
  repeat split; [exact H1 | exact H2 |].
  destruct H3 as [H3|H3]; [left | right]; apply endswith_cons, H3.
Qed.

(** X13.  What a match of [source_regex] captures: the number is a non-empty
    string of decimal digits; the text is not empty, holds no line feed,
    and is the end of the matched string, one final line feed apart. *)
Theorem source_regex_groups (s num t : string) :
  source_regex s = Some (num, t) ->
  num <> "" /\ all_chars isdecimal num = true
  /\ t <> "" /\ nolf t = true
  /\ (endswith s t = true \/ endswith s (t +:+ String LF "") = true).
Proof.
  unfold source_regex.
  destruct (literal_nocase "Source" (lstrip s)) as [s2|] eqn:E2; [|discriminate].
  pose proof (span_digits_spec (lstrip s2)) as (Hd & Hs4).
  destruct (span_digits (lstrip s2)) as [ds s4]. simpl in Hd, Hs4.
  destruct (truthy ds) eqn:Eds; [|discriminate].
  destruct (lstrip s4) as [|c s6] eqn:E4; [discriminate|].
  destruct (Ascii.eqb c ":"); [|discriminate].
  destruct (space_then_text s6) as [t'|] eqn:E6; [|discriminate].
  intros [= <- <-].
  destruct (space_then_text_spec _ _ E6) as (H1 & H2 & H3).
  split; [apply truthy_true, Eds|]. split; [exact Hd|].
  split; [exact H1|]. split; [exact H2|].
  assert (Hsuf : endswith s s6 = true).
  { apply (endswith_trans _ (lstrip s)); [apply endswith_lstrip|].
    apply (endswith_trans _ s2); [apply (endswith_literal _ _ _ E2)|].
    apply (endswith_trans _ (lstrip s2)); [apply endswith_lstrip|].
    apply (endswith_trans _ s4); [exact Hs4|].
    apply (endswith_trans _ (lstrip s4)); [apply endswith_lstrip|].
    rewrite E4. apply endswith_cons, endswith_refl. }
  destruct H3 as [H3|H3]; [left | right]; apply (endswith_trans _ s6); assumption.
Qed.

Lemma source_regex_groups_witness :
  source_regex (String " " "source 12 :  Theft is bad." +:+ String LF "")
  = Some ("12", "Theft is bad.")
  /\ "12" <> "" /\ all_chars isdecimal "12" = true
  /\ "Theft is bad." <> "" /\ nolf "Theft is bad." = true
  /\ (endswith (String " " "source 12 :  Theft is bad." +:+ String LF "")
        "Theft is bad." = true
      \/ endswith (String " " "source 12 :  Theft is bad." +:+ String LF "")
           ("Theft is bad." +:+ String LF "") = true).
Proof.
  assert (H : source_regex (String " " "source 12 :  Theft is bad." +:+ String LF "")
              = Some ("12", "Theft is bad.")) by (vm_compute; reflexivity).
  split; [exact H|].
  exact (source_regex_groups _ _ _ H).
Defined.

End SourceRegex.

Section SourceLabel.

Import QdrantService.









End SourceLabel.

(** ** The citations of an answer *)

Section Query.

Import QdrantService.

Variable int_max_str_digits : nat.
Variable query_engine : nat -> string -> Response.

(** The citation [c] is the one of [node]. *)
Let cites (node : Node) (c : Citation.t) : Prop :=
  exists src sec,
    node_metadata node !! "source" = Some src
    /\ node_metadata node !! "section" = Some sec
    /\ Citation.source c = src +:+ " > " +:+ sec
    /\ match source_regex (node_text node) with
       | Some (num, t) =>
           Citation.number c = Some (digits_value 0 num) /\ Citation.text c = t
       | None =>
           Citation.number c = None /\ Citation.text c = node_text node
       end.

Lemma cite_returns (node : Node) (c : Citation.t) :
  cite int_max_str_digits node = Returns c -> cites node c.
Proof.
  unfold cite, citation_source, cites.
  destruct (source_regex (node_text node)) as [[num t]|].
  - unfold py_int. destruct (_ && _); [discriminate|]. cbn.
    destruct (node_metadata node !! "source") as [src|]; [|discriminate].
    destruct (node_metadata node !! "section") as [sec|]; [|discriminate].
    cbn. intros [= <-]. exists src, sec. simpl. auto.
  - cbn.
    destruct (node_metadata node !! "source") as [src|]; [|discriminate].
    destruct (node_metadata node !! "section") as [sec|]; [|discriminate].
    cbn. intros [= <-]. exists src, sec. simpl. auto.
Qed.

Lemma cite_all_returns (nodes : list Node) : forall cs,
  cite_all int_max_str_digits nodes = Returns cs -> Forall2 cites nodes cs.
Proof.
  induction nodes as [|node rest IH]; intros cs; simpl.
  - intros [= <-]. constructor.
  - destruct (cite int_max_str_digits node) as [c|e] eqn:E; [|discriminate]. cbn.
    destruct (cite_all int_max_str_digits rest) as [cs'|e]; [|discriminate]. cbn.
    intros [= <-]. constructor; [apply cite_returns, E | apply IH; reflexivity].
Qed.

(** X15.  When [query] returns, the output repeats the query as it was
    asked, holds the text of the answer that the engine gave to the query
    with the instructions before it, and has one citation for each source
    node, in order: its source is the source and the section of the node
    joined by an angle bracket, and its number and text are the groups of
    the source label of the node text, or no number and the whole text
    when the text has no such label. *)
Theorem query_returns (k : nat) (query_str : string) (out : Output.t) :
  query int_max_str_digits query_engine k query_str = Returns out ->
  Output.query out = query_str
  /\ Output.response out
     = response_text (query_engine k (add_instructions query_str))
  /\ Forall2 cites
       (source_nodes (query_engine k (add_instructions query_str)))
       (Output.citations out).
Proof.
  unfold query. cbv zeta.
  destruct (cite_all int_max_str_digits _) as [cs|e] eqn:E; [|discriminate].
  cbn. intros [= <-]. simpl. repeat split. apply cite_all_returns, E.
Qed.

End Query.

Lemma query_returns_witness :
  QdrantService.query 4300 Sample.engine 2 "what happens if I steal?"
  = QdrantService.Returns Sample.answer_output
  /\ Output.query Sample.answer_output = "what happens if I steal?"
  /\ Output.response Sample.answer_output
     = response_text
         (Sample.engine 2 (QdrantService.add_instructions "what happens if I steal?"))
  /\ Forall2
       (fun node c =>
          exists src sec,
            node_metadata node !! "source" = Some src
            /\ node_metadata node !! "section" = Some sec
            /\ Citation.source c = src +:+ " > " +:+ sec
            /\ match QdrantService.source_regex (node_text node) with
               | Some (num, t) =>
                   Citation.number c = Some (QdrantService.digits_value 0 num)
                   /\ Citation.text c = t
               | None =>
                   Citation.number c = None /\ Citation.text c = node_text node
               end)
       (source_nodes
          (Sample.engine 2 (QdrantService.add_instructions "what happens if I steal?")))
       (Output.citations Sample.answer_output).
Proof.
  assert (H : QdrantService.query 4300 Sample.engine 2 "what happens if I steal?"
              = QdrantService.Returns Sample.answer_output)
    by (vm_compute; reflexivity).
  split; [exact H|].
  exact (query_returns 4300 Sample.engine 2 "what happens if I steal?"
           Sample.answer_output H).
Defined.

(** X17.  The metadata that [flush_section] writes has the keys that [query]
    reads: a node with the metadata of a document is cited under the
    source and the section of that document, and citing it never raises a
    [TypeError]. *)
Theorem built_document_is_citable (limit : nat) (d : Doc.t) (text : string) :
  QdrantService.citation_source
    {| node_text := text; node_metadata := QdrantService.metadata_of d |}
  = QdrantService.Returns (Doc.source d +:+ " > " +:+ Doc.section d)
  /\ QdrantService.cite limit
       {| node_text := text; node_metadata := QdrantService.metadata_of d |}
     <> QdrantService.Raises QdrantService.TypeError.
Proof.
  assert (H : QdrantService.citation_source
    {| node_text := text; node_metadata := QdrantService.metadata_of d |}
    = QdrantService.Returns (Doc.source d +:+ " > " +:+ Doc.section d)).
  { unfold QdrantService.citation_source, QdrantService.metadata_of. simpl.
    by simplify_map_eq. }
  split; [exact H|].
  unfold QdrantService.cite. rewrite H.
  destruct (QdrantService.source_regex _) as [[num t]|]; cbn; [|discriminate].
  unfold QdrantService.py_int. destruct (_ && _); cbn; discriminate.
Qed.

(** ** Lines before the first heading *)

(** X18.  A file that has text but no heading line adds no document and
    raises nothing. *)
Theorem file_without_heading_adds_nothing (docs : list Doc.t) (pdf : Pdf) :
  Outline.textless pdf = false ->
  Forall Spec.not_heading (Outline.lines_of pdf) ->
  file_documents docs pdf = Ok docs.
Proof.
  intros Ht Hn. unfold file_documents. fold (Outline.lines_of pdf).
  apply split_sections_no_heading; [|exact Hn].
  intros E. unfold Outline.lines_of in E. apply splitlines_nil in E.
  apply textless_full_text in E. congruence.
Qed.

Lemma file_without_heading_adds_nothing_witness :
  Outline.textless
    {| basename := "notes.pdf";
       pages := [ {| extract_text := Some "Minutes of the small council";
                     bold_extract_text := None |} ] |} = false
  /\ Forall Spec.not_heading
       (Outline.lines_of
          {| basename := "notes.pdf";
             pages := [ {| extract_text := Some "Minutes of the small council";
                           bold_extract_text := None |} ] |})
  /\ file_documents Sample.statute_docs
       {| basename := "notes.pdf";
          pages := [ {| extract_text := Some "Minutes of the small council";
                        bold_extract_text := None |} ] |}
     = Ok Sample.statute_docs.
Proof.
  set (pdf := {| basename := "notes.pdf";
                 pages := [ {| extract_text := Some "Minutes of the small council";
                               bold_extract_text := None |} ] |}).
  assert (H1 : Outline.textless pdf = false) by reflexivity.
  assert (H2 : Forall Spec.not_heading (Outline.lines_of pdf))
    by (vm_compute; repeat constructor).
  split; [exact H1|]. split; [exact H2|].
  exact (file_without_heading_adds_nothing Sample.statute_docs pdf H1 H2).
Defined.

(** X19.  Of the lines that come before the first heading of a file, only
    the first one counts, as the source label: the lines between it and
    the first heading can be removed without changing the result. *)
Theorem preamble_leaves_no_trace
    (docs : list Doc.t) (filename line0 : string) (preamble lines : list string)
    (bold : gset string) :
  Spec.not_heading line0 ->
  Forall Spec.not_heading preamble ->
  split_sections docs filename (line0 :: preamble ++ lines) bold
  = split_sections docs filename (line0 :: lines) bold.
Proof.
  intros H0 Hp. unfold split_sections. rewrite !source_label_first. cbn.
  f_equal.
  rewrite (scan_lines_discards_preamble bold _ filename docs (line0 :: preamble) lines)
    by (constructor; assumption).
  rewrite (scan_lines_discards_preamble bold _ filename docs [line0] lines)
    by (constructor; [assumption | constructor]).
  reflexivity.
Qed.

Lemma preamble_leaves_no_trace_witness :
  Spec.not_heading "Laws of the Realm"
  /\ Forall Spec.not_heading ["Given at the capital"; ""]
  /\ split_sections [] "laws.pdf"
       ("Laws of the Realm" :: ["Given at the capital"; ""] ++ ["1. Theft is bad."]) ∅
     = split_sections [] "laws.pdf" ("Laws of the Realm" :: ["1. Theft is bad."]) ∅.
Proof.
  assert (H1 : Spec.not_heading "Laws of the Realm") by (vm_compute; reflexivity).
  assert (H2 : Forall Spec.not_heading ["Given at the capital"; ""])
    by (repeat constructor).
  split; [exact H1|]. split; [exact H2|].
  exact (preamble_leaves_no_trace [] "laws.pdf" "Laws of the Realm"
           ["Given at the capital"; ""] ["1. Theft is bad."] ∅ H1 H2).
Defined.

(** ** The source label taken from the file name *)

Lemma has_dot_app (a b : string) : OsPath.has_dot b = true -> OsPath.has_dot (a +:+ b) = true.
Proof.
  intros H. induction a as [|c a IH]; [exact H|].
  simpl. rewrite IH. apply orb_true_r.
Qed.

Lemma splitext_root_pdf (name : string) : forall seen,
  seen || negb (all_chars (fun c => Ascii.eqb c ".") name) = true ->
  OsPath.splitext_root seen (name +:+ ".pdf") = name.
Proof.
  induction name as [|c r IH]; intros seen H.
  - simpl in H. rewrite orb_false_r in H. subst seen. reflexivity.
  - change (String c r +:+ ".pdf") with (String c (r +:+ ".pdf")).
    cbn [OsPath.splitext_root].
    rewrite (has_dot_app r ".pdf") by reflexivity.
    rewrite andb_false_r. f_equal. apply IH.
    simpl in H. destruct seen, (Ascii.eqb c "."); simpl in *; auto.
Qed.

(** X20.  When the first line of a file named [name.pdf] is a heading, the
    source label is [name], provided [name] is not made of dots only. *)
Theorem source_label_falls_back_to_name
    (name line0 : string) (rest : list string) (sec rest0 : string) :
  Re.section_pattern (strip line0) = Some (sec, rest0) ->
  all_chars (fun c => Ascii.eqb c ".") name = false ->
  source_label (line0 :: rest) (name +:+ ".pdf") = Ok name.
Proof.
  intros Hh Hn. rewrite source_label_first, Hh. f_equal.
  unfold OsPath.stem. apply splitext_root_pdf. rewrite Hn. reflexivity.
Qed.

Lemma source_label_falls_back_to_name_witness :
  Re.section_pattern (strip "1. Theft") = Some ("1", "Theft")
  /\ all_chars (fun c => Ascii.eqb c ".") "seven.kingdoms" = false
  /\ source_label ("1. Theft" :: ["Theft is bad."]) ("seven.kingdoms" +:+ ".pdf")
     = Ok "seven.kingdoms".
Proof.
  assert (H1 : Re.section_pattern (strip "1. Theft") = Some ("1", "Theft"))
    by (vm_compute; reflexivity).
  assert (H2 : all_chars (fun c => Ascii.eqb c ".") "seven.kingdoms" = false)
    by reflexivity.
  split; [exact H1|]. split; [exact H2|].
  exact (source_label_falls_back_to_name "seven.kingdoms" "1. Theft"
           ["Theft is bad."] "1" "Theft" H1 H2).
Defined.

(** ** Lines that start with a digit *)

Lemma nolf_app (a b : string) : nolf (a +:+ b) = nolf a && nolf b.
Proof.
  induction a as [|c a IH]; [reflexivity|].
  change (String c a +:+ b) with (String c (a +:+ b)).
  simpl. rewrite IH, andb_assoc. reflexivity.
Qed.

(** What the greedy reading of the section number leaves can not prolong
    the number. *)
Lemma section_span_ends (s : string) :
  Outline.ends_number (snd (Re.section_span s)) = true.
Proof.
  induction s as [|c r IH]; [reflexivity|].
  cbn [Re.section_span]. destruct (isdecimal c) eqn:Ec.
  - destruct (Re.section_span r) as [a b]. exact IH.
  - destruct (Ascii.eqb c ".") eqn:Ed;
      [|simpl; rewrite Ec, ?Ed, ?andb_false_r; reflexivity].
    destruct r as [|d r']; [simpl; rewrite Ec, ?Ed, ?andb_false_r; reflexivity|].
    destruct (isdecimal d) eqn:Edd.
    + destruct (Re.section_span (String d r')) as [a b]. exact IH.
    + simpl. rewrite Ec, ?Ed, ?Edd, ?andb_false_r. reflexivity.
Qed.

(** A string that starts with a digit splits into a dotted number and a
    tail that can not prolong it. *)
Lemma dotted_split (c : ascii) (r : string) :
  isdecimal c = true ->
  exists sec tail,
    String c r = sec +:+ tail
    /\ Outline.dotted sec = true
    /\ Outline.ends_number tail = true.
Proof.
  intros Hc.
  exists (fst (Re.section_span (String c r))), (snd (Re.section_span (String c r))).
  split; [apply section_span_split|].
  split; [apply (proj2 (section_span_dotted (String c r)) c r eq_refl Hc)|].
  apply section_span_ends.
Qed.

Lemma section_pattern_split (sec tail : string) :
  Outline.dotted sec = true ->
  Outline.ends_number tail = true ->
  nolf tail = true ->
  Re.section_pattern (sec +:+ tail) = Some (sec, Re.skip_separator tail).
Proof.
  intros Hn Ht Hlf.
  pose proof (proj1 (section_span_number tail Ht sec) Hn) as E.
  destruct sec as [|c r]; [discriminate|].
  pose proof Hn as Hc. cbn [Outline.dotted] in Hc.
  apply andb_true_iff in Hc as [Hc _].
  change (String c r +:+ tail) with (String c (r +:+ tail)) in *.
  unfold Re.section_pattern. rewrite Hc, E.
  rewrite dot_star_end_nolf by (apply skip_separator_nolf, Hlf). reflexivity.
Qed.

(** C10.  A line of the text whose trimmed form starts with a decimal
    digit matches the heading pattern.  Its trimmed form splits into a
    dotted number and a tail that can not prolong the number (the tail
    starts neither with a digit nor with a dot before a digit), so the
    number is the longest one at the head of the line; and for that split
    the section number is the whole number, and the rest is the tail less
    the separator.  The line loop then flushes the current section and
    opens the section of that number, whose body holds the rest at most:
    the line is never added to the body of the section before it. *)
Theorem digit_line_opens_section
    (bold : gset string) (source filename : string) (st : loop_state)
    (full_text line : string) (first : ascii) (r : string) :
  In line (splitlines full_text) ->
  strip line = String first r ->
  isdecimal first = true ->
  (exists sec tail,
     strip line = sec +:+ tail
     /\ Outline.dotted sec = true
     /\ Outline.ends_number tail = true)
  /\ forall sec tail,
       strip line = sec +:+ tail ->
       Outline.dotted sec = true ->
       Outline.ends_number tail = true ->
       Re.section_pattern (strip line) = Some (sec, Re.skip_separator tail)
       /\ let st' := line_step bold source filename st line in
          curr_docs st'
          = flush_section (curr_docs st) (current_section st)
              (current_text_lines st) source filename (section_title st)
          /\ current_section st' = Some sec
          /\ (current_text_lines st' = []
              \/ current_text_lines st' = [strip (Re.skip_separator tail)]).
Proof.
  intros Hin Hstrip Hdigit. split.
  - rewrite Hstrip. apply dotted_split, Hdigit.
  - intros sec tail Hsplit Hsec Htail.
    assert (Hn : nolf (strip line) = true)
      by (apply nolf_strip, (splitlines_nolf full_text), Hin).
    assert (Hpat : Re.section_pattern (strip line)
                   = Some (sec, Re.skip_separator tail)).
    { rewrite Hsplit in Hn |- *. rewrite nolf_app in Hn.
      apply andb_true_iff in Hn as [_ Hn].
      apply section_pattern_split; assumption. }
    split; [exact Hpat|].
    rewrite (line_step_heading bold source filename st line _ _ Hpat). cbv zeta.
    destruct (bool_decide (strip line ∈ bold)
              && looks_like_title (strip (Re.skip_separator tail))); simpl.
    + auto.
    + destruct (truthy (strip (Re.skip_separator tail))); auto.
Qed.

Lemma digit_line_opens_section_witness :
  In "2023 was a landmark year" (splitlines "2023 was a landmark year")
  /\ strip "2023 was a landmark year" = String "2" "023 was a landmark year"
  /\ isdecimal "2" = true
  /\ Re.section_pattern (strip "2023 was a landmark year")
     = Some ("2023", Re.skip_separator " was a landmark year")
  /\ let st' := line_step ∅ "laws" "laws.pdf"
                  {| curr_docs := []; current_section := Some "1";
                     section_title := None;
                     current_text_lines := ["Theft is bad."] |}
                  "2023 was a landmark year" in
     curr_docs st'
     = flush_section [] (Some "1") ["Theft is bad."] "laws" "laws.pdf" None
     /\ current_section st' = Some "2023"
     /\ (current_text_lines st' = []
         \/ current_text_lines st'
            = [strip (Re.skip_separator " was a landmark year")]).
Proof.
  assert (H1 : In "2023 was a landmark year" (splitlines "2023 was a landmark year"))
    by (vm_compute; left; reflexivity).
  assert (H2 : strip "2023 was a landmark year" = String "2" "023 was a landmark year")
    by (vm_compute; reflexivity).
  assert (H3 : isdecimal "2" = true) by reflexivity.
  split; [exact H1|]. split; [exact H2|]. split; [exact H3|].
  apply (proj2 (digit_line_opens_section ∅ "laws" "laws.pdf"
                  {| curr_docs := []; current_section := Some "1";
                     section_title := None; current_text_lines := ["Theft is bad."] |}
                  "2023 was a landmark year" "2023 was a landmark year"
                  "2" "023 was a landmark year" H1 H2 H3)
               "2023" " was a landmark year").
  - vm_compute. reflexivity.
  - reflexivity.
  - reflexivity.
Defined.
